(** * Smart Document Assistant: text utilities, chunk selection and reply parsing

    A shallow embedding of the repository's reusable logic:
    - [utils/text_utils.py]: [clean_text], [chunk_text], [extract_key_sentences];
    - [core/ai_assistant.py]: [_find_relevant_chunk], [_parse_answer],
      [answer_question];
    - [core/question_generator.py]: [_parse_questions], [_parse_evaluation],
      [_generate_fallback_questions], [generate_challenge_questions];
    - [app.py]: [show_challenge_interface].

    A Python [str] is modelled by [string]; its characters are the code points
    U+0000..U+00FF, and the character classes below ([isspace], [isalnum],
    [lower], the line boundaries of [splitlines]) are those of CPython on that
    range.  Python integers are [Z]; list lengths and positions are [nat].
    The generative model is an opaque collaborator: a function from a prompt
    and its generation options to a reply or an exception. *)

From Stdlib Require Import Ascii String ZArith Lia QArith_base Sorted.
From Stdlib Require Import DecimalString.
From stdpp Require Import base list strings gmap.

Local Open Scope Z_scope.

(** ** Exceptions and fallible results *)

Inductive exn : Type :=
  | ValueError (msg : string)
  | IndexError (msg : string)
  | CollaboratorError (msg : string).

(** [str(e)] *)
Definition exn_str (e : exn) : string :=
  match e with
  | ValueError m | IndexError m | CollaboratorError m => m
  end.

Inductive result (A : Type) : Type :=
  | Ok (a : A)
  | Raise (e : exn).
Arguments Ok {A} a.
Arguments Raise {A} e.

#[global] Instance result_ret : MRet result := fun A a => Ok a.

#[global] Instance result_bind : MBind result := fun A B k r =>
  match r with
  | Ok a => k a
  | Raise e => Raise e
  end.

#[global] Instance result_fmap : FMap result := fun A B f r =>
  match r with
  | Ok a => Ok (f a)
  | Raise e => Raise e
  end.

(** ** The Python primitives the sources use *)

Module Py.

Definition code (c : ascii) : N := N_of_ascii c.

Definition in_range (lo hi : N) (c : ascii) : bool :=
  ((lo <=? code c) && (code c <=? hi))%N.

(** [str.isspace], also the class [\s] of [re] and the separators of
    [str.split()] and [str.strip()]. *)
Definition isspace (c : ascii) : bool :=
  in_range 9 13 c || in_range 28 32 c || in_range 133 133 c
  || in_range 160 160 c.

(** [str.isalnum]; with ["_"] it is the class [\w] of [re]. *)
Definition isalnum (c : ascii) : bool :=
  in_range 48 57 c || in_range 65 90 c || in_range 97 122 c
  || in_range 170 170 c || in_range 178 179 c || in_range 181 181 c
  || in_range 185 186 c || in_range 188 190 c || in_range 192 214 c
  || in_range 216 246 c || in_range 248 255 c.

Definition is_word (c : ascii) : bool := isalnum c || (c =? "_")%char.

(** One character of [str.lower]. *)
Definition lower_char (c : ascii) : ascii :=
  if in_range 65 90 c || in_range 192 214 c || in_range 216 222 c
  then ascii_of_N (code c + 32)
  else c.

Fixpoint lower (s : string) : string :=
  match s with
  | EmptyString => EmptyString
  | String c s' => String (lower_char c) (lower s')
  end.

Fixpoint lstrip_by (p : ascii -> bool) (s : string) : string :=
  match s with
  | EmptyString => EmptyString
  | String c s' => if p c then lstrip_by p s' else s
  end.

Fixpoint rstrip_by (p : ascii -> bool) (s : string) : string :=
  match s with
  | EmptyString => EmptyString
  | String c s' =>
      match rstrip_by p s' with
      | EmptyString => if p c then EmptyString else String c EmptyString
      | r => String c r
      end
  end.

(** [s.strip()] *)
Definition strip (s : string) : string :=
  lstrip_by isspace (rstrip_by isspace s).

(** [s.split()]: the maximal runs of non-whitespace characters. [cur] is
    the word being read. *)
Fixpoint split_go (cur : string) (s : string) : list string :=
  match s with
  | EmptyString => if String.eqb cur "" then [] else [cur]
  | String c s' =>
      if isspace c
      then (if String.eqb cur "" then split_go "" s'
            else cur :: split_go "" s')
      else split_go (cur +:+ String c "") s'
  end.

Definition split (s : string) : list string := split_go "" s.

(** [s.split(sep)] for a one-character separator. *)
Fixpoint split_on (sep : ascii) (s : string) : list string :=
  match s with
  | EmptyString => [EmptyString]
  | String c s' =>
      if (c =? sep)%char then EmptyString :: split_on sep s'
      else match split_on sep s' with
           | w :: ws => String c w :: ws
           | [] => [String c EmptyString]
           end
  end.

(** [s.split(sep, maxsplit)] for a one-character separator. *)
Fixpoint split_max (sep : ascii) (maxsplit : nat) (s : string) : list string :=
  match maxsplit with
  | O => [s]
  | S m =>
      match s with
      | EmptyString => [EmptyString]
      | String c s' =>
          if (c =? sep)%char then EmptyString :: split_max sep m s'
          else match split_max sep maxsplit s' with
               | w :: ws => String c w :: ws
               | [] => [String c EmptyString]
               end
      end
  end.

(** The line boundaries of [str.splitlines] below U+0100. *)
Definition is_linebreak (c : ascii) : bool :=
  in_range 10 13 c || in_range 28 30 c || in_range 133 133 c.

(** [s.splitlines()]: a carriage return followed by a line feed is one
    boundary, and a final boundary opens no empty last line. *)
Fixpoint splitlines_go (cur : string) (s : string) : list string :=
  match s with
  | EmptyString => if String.eqb cur "" then [] else [cur]
  | String c s' =>
      if is_linebreak c then
        match s' with
        | String d s'' =>
            if ((c =? "013") && (d =? "010"))%char
            then cur :: splitlines_go "" s''
            else cur :: splitlines_go "" s'
        | EmptyString => [cur]
        end
      else splitlines_go (cur +:+ String c "") s'
  end.

Definition splitlines (s : string) : list string := splitlines_go "" s.

(** [sep.join(l)] *)
Definition join (sep : string) (l : list string) : string :=
  String.concat sep l.

(** [s.startswith(p)] *)
Definition startswith (s p : string) : bool := String.prefix p s.

(** [sub in s] *)
Fixpoint contains (sub s : string) : bool :=
  String.prefix sub s ||
  match s with
  | EmptyString => false
  | String _ s' => contains sub s'
  end.

Definition has_char (c : ascii) (s : string) : bool :=
  contains (String c EmptyString) s.

(** Truth value of a string, and of an [Optional[str]]. *)
Definition truthy (s : string) : bool := negb (String.eqb s "").

Definition truthy_opt (o : option string) : bool :=
  match o with
  | Some s => truthy s
  | None => false
  end.

(** A slice bound [k] of a sequence of length [len]: negative bounds
    count from the end, and every bound is clamped into [0, len]. *)
Definition bound (len k : Z) : Z :=
  if k <? 0 then Z.max (k + len) 0 else Z.min k len.

(** [l[i:j]] *)
Definition slice {A : Type} (l : list A) (i j : Z) : list A :=
  let len := Z.of_nat (length l) in
  let a := bound len i in
  let b := bound len j in
  take (Z.to_nat (b - a)) (drop (Z.to_nat a) l).

(** [l[:j]] *)
Definition slice_to {A : Type} (l : list A) (j : Z) : list A := slice l 0 j.

(** [s[:j]] on a string. *)
Definition str_slice_to (s : string) (j : Z) : string :=
  string_of_list_ascii (slice_to (list_ascii_of_string s) j).

(** [l[k]] for a non-negative constant [k]. *)
Definition item {A : Type} (l : list A) (k : nat) : result A :=
  match l !! k with
  | Some x => Ok x
  | None => Raise (IndexError "list index out of range")
  end.

(** [range(start, stop, step)]: [None] stands for the [ValueError] of a
    zero step. *)
Definition range (start stop step : Z) : option (list Z) :=
  if step =? 0 then None
  else
    let count :=
      if 0 <? step then (stop - start + step - 1) / step
      else (start - stop - step - 1) / (- step) in
    Some (map (fun k : nat => start + Z.of_nat k * step)
              (seq 0 (Z.to_nat count))).

Definition digit_of (c : ascii) : option Z :=
  if in_range 48 57 c then Some (Z.of_N (code c) - 48) else None.

(** The digits of an integer literal: single underscores may separate
    digits. [prev_us] holds at the start and after an underscore, where a
    digit must follow. The result is the value and the number of digits. *)
Fixpoint digits_go (acc : Z) (ndigits : nat) (prev_us : bool) (s : string)
  : option (Z * nat) :=
  match s with
  | EmptyString => if prev_us then None else Some (acc, ndigits)
  | String c s' =>
      match digit_of c with
      | Some d => digits_go (10 * acc + d) (S ndigits) false s'
      | None =>
          if (c =? "_")%char && negb prev_us
          then digits_go acc ndigits true s'
          else None
      end
  end.

(** The whitespace [int] skips around a literal. *)
Definition int_space (c : ascii) : bool :=
  in_range 9 13 c || in_range 32 32 c || in_range 133 133 c
  || in_range 160 160 c.

(** The default limit on the digits of a converted string. *)
Definition max_str_digits : nat := 4300.

(** [int(s)]: [None] stands for [ValueError]. *)
Definition int (s : string) : option Z :=
  let body := lstrip_by int_space (rstrip_by int_space s) in
  let '(negative, digits) :=
    match body with
    | String "-" r => (true, r)
    | String "+" r => (false, r)
    | _ => (false, body)
    end in
  match digits_go 0 O true digits with
  | Some (v, n) =>
      if (n <=? max_str_digits)%nat
      then Some (if negative then - v else v)
      else None
  | None => None
  end.

End Py.

(** ** utils/text_utils.py *)

Module TextUtils.

(** [re.sub(r'\s+', ' ', s)]: [in_run] holds while a whitespace run that
    has already been replaced is being skipped. *)
Fixpoint sub_ws_go (in_run : bool) (s : string) : string :=
  match s with
  | EmptyString => EmptyString
  | String c s' =>
      if Py.isspace c
      then (if in_run then sub_ws_go true s'
            else String " " (sub_ws_go true s'))
      else String c (sub_ws_go false s')
  end.

Definition sub_ws (s : string) : string := sub_ws_go false s.

Definition punctuation : list ascii :=
  ["."; ","; "!"; "?"; ";"; ":"; "-"; "("; ")"]%char.

(** The complement of the class [[^\w\s\.\,\!\?\;\:\-\(\)]]. *)
Definition allowed (c : ascii) : bool :=
  Py.is_word c || Py.isspace c || existsb (Ascii.eqb c) punctuation.

(** [re.sub(r'[^\w\s\.\,\!\?\;\:\-\(\)]', '', s)] *)
Fixpoint sub_special (s : string) : string :=
  match s with
  | EmptyString => EmptyString
  | String c s' =>
      if allowed c then String c (sub_special s') else sub_special s'
  end.

Definition clean_text (text : string) : string :=
  let text := sub_ws (Py.strip text) in
  let text := sub_special text in
  text.

(** The body of the [for] loop of [chunk_text], over the indices the
    [range] yields; the [break] ends the scan. *)
Fixpoint chunk_loop (words : list string) (max_chunk_size : Z)
    (indices : list Z) : list string :=
  match indices with
  | [] => []
  | i :: rest =>
      let chunk := Py.join " " (Py.slice words i (i + max_chunk_size)) in
      chunk ::
        (if i + max_chunk_size >=? Z.of_nat (length words) then []
         else chunk_loop words max_chunk_size rest)
  end.

Definition chunk_text (text : string) (max_chunk_size overlap : Z)
  : result (list string) :=
  let words := Py.split text in
  match Py.range 0 (Z.of_nat (length words)) (max_chunk_size - overlap) with
  | None => Raise (ValueError "range() arg 3 must not be zero")
  | Some indices => Ok (chunk_loop words max_chunk_size indices)
  end.

Definition is_terminal (c : ascii) : bool :=
  existsb (Ascii.eqb c) ["."; "!"; "?"]%char.

(** [re.split(r'[.!?]+', s)]: the pieces between the runs of terminal
    punctuation, the empty ones at both ends included. *)
Fixpoint re_split_go (cur : string) (in_run : bool) (s : string)
  : list string :=
  match s with
  | EmptyString => [cur]
  | String c s' =>
      if is_terminal c
      then (if in_run then re_split_go "" true s'
            else cur :: re_split_go "" true s')
      else re_split_go (cur +:+ String c "") false s'
  end.

Definition re_split (s : string) : list string := re_split_go "" false s.

Definition important_words : list string :=
  ["conclusion"; "result"; "finding"; "important"; "significant"; "main";
   "key"].

(** [sum(1 for word in important_words if word.lower() in sentence.lower())] *)
Definition score_sentence (sentence : string) : nat :=
  length (List.filter
            (fun word => Py.contains (Py.lower word) (Py.lower sentence))
            important_words).

(** The sort key [(x[0], len(x[1]))] and the order on such pairs. *)
Definition sort_key (x : nat * string) : nat * nat :=
  (x.1, String.length x.2).

Definition key_gtb (a b : nat * nat) : bool :=
  (b.1 <? a.1)%nat || ((a.1 =? b.1)%nat && (b.2 <? a.2)%nat).

(** [list.sort(key=..., reverse=True)]: descending and stable, so an item
    goes in front of the first one whose key is not greater. *)
Fixpoint insert_desc (x : nat * string) (l : list (nat * string))
  : list (nat * string) :=
  match l with
  | [] => [x]
  | y :: l' =>
      if key_gtb (sort_key y) (sort_key x) then y :: insert_desc x l'
      else x :: l
  end.

Fixpoint sort_desc (l : list (nat * string)) : list (nat * string) :=
  match l with
  | [] => []
  | x :: l' => insert_desc x (sort_desc l')
  end.

(** The sentences kept by the comprehension of [extract_key_sentences]. *)
Definition kept_sentences (text : string) : list string :=
  map Py.strip
    (List.filter (fun s => (20 <? String.length (Py.strip s))%nat)
                 (re_split text)).

Definition scored_sentences (text : string) : list (nat * string) :=
  map (fun sentence => (score_sentence sentence, sentence))
      (kept_sentences text).

Definition extract_key_sentences (text : string) (num_sentences : Z)
  : list string :=
  map snd (Py.slice_to (sort_desc (scored_sentences text)) num_sentences).

End TextUtils.

(** ** The collaborator, and code that threads an object's state

    A method that mutates its object or draws random numbers is a function of
    the state [S] it runs in; an exception leaves the state as it was when it
    was raised. *)

Record generation_config : Type := {
  max_output_tokens : Z;
  temperature : Q
}.

(** [self.model.generate_content(prompt, generation_config=...)] followed by
    the read of [response.text]: either of them may raise, and the text may
    be absent. *)
Definition collaborator : Type :=
  string -> generation_config -> result (option string).

Definition st (S A : Type) : Type := S -> result A * S.

#[global] Instance st_ret {S : Type} : MRet (st S) :=
  fun A a s => (Ok a, s).

#[global] Instance st_bind {S : Type} : MBind (st S) := fun A B k m s =>
  match m s with
  | (Ok a, s') => k a s'
  | (Raise e, s') => (Raise e, s')
  end.

Definition lift {S A : Type} (r : result A) : st S A := fun s => (r, s).

Definition modify {S : Type} (f : S -> S) : st S unit :=
  fun s => (Ok tt, f s).

(** [try: body  except Exception as e: handler(e)] in a stateful method. *)
Definition try_catch {S A : Type} (body : st S A) (handler : exn -> st S A)
  : st S A :=
  fun s =>
    match body s with
    | (Ok a, s') => (Ok a, s')
    | (Raise e, s') => handler e s'
    end.

(** ** config/settings.py *)

Module Settings.
Definition MAX_TOKENS : Z := 1000.
Definition TEMPERATURE : Q := (3 # 10)%Q.
Definition CHUNK_SIZE : Z := 1500.
Definition CHUNK_OVERLAP : Z := 150.
Definition MAX_FILE_SIZE : Z := 10 * 1024 * 1024.
Definition SUPPORTED_FORMATS : list string := [".pdf"; ".txt"].
End Settings.

(** ** core/ai_assistant.py *)

Module AIAssistant.

Record answer_record : Type := {
  answer : string;
  reference : string;
  confidence : Q
}.

(** One entry of [self.conversation_history]. *)
Record exchange : Type := {
  ex_question : string;
  ex_answer : string;
  ex_reference : string
}.

(** [len(question_words.intersection(set(chunk.lower().split())))] *)
Definition overlap (question_words : gset string) (chunk : string) : nat :=
  size (question_words ∩ list_to_set (Py.split (Py.lower chunk))).

Definition scan_step (question_words : gset string)
    (best : string * nat) (chunk : string) : string * nat :=
  if (best.2 <? overlap question_words chunk)%nat
  then (chunk, overlap question_words chunk)
  else best.

Definition _find_relevant_chunk (question : string) (chunks : list string)
  : result string :=
  let question_words : gset string :=
    list_to_set (Py.split (Py.lower question)) in
  first ← Py.item chunks 0;
  let best := fold_left (scan_step question_words) chunks (first, O) in
  Ok best.1.

Fixpoint parse_answer_loop (lines : list string) (res : answer_record)
  : result answer_record :=
  match lines with
  | [] => Ok res
  | line :: rest =>
      if Py.startswith line "Answer:" then
        v ← Py.item (Py.split_max ":" 1 line) 1;
        parse_answer_loop rest
          {| answer := Py.strip v; reference := reference res;
             confidence := confidence res |}
      else if Py.startswith line "Reference:" then
        v ← Py.item (Py.split_max ":" 1 line) 1;
        parse_answer_loop rest
          {| answer := answer res; reference := Py.strip v;
             confidence := confidence res |}
      else parse_answer_loop rest res
  end.

Definition _parse_answer (answer_text : string) : result answer_record :=
  res ← parse_answer_loop (Py.splitlines answer_text)
        {| answer := ""; reference := ""; confidence := (8 # 10)%Q |};
  if negb (Py.truthy (answer res)) then
    Ok {| answer := Py.strip answer_text;
          reference := "General document content";
          confidence := confidence res |}
  else Ok res.

(** The double quote. *)
Definition dq : string := String "034" "".

(** The f-string of [answer_question]. *)
Definition answer_prompt (best_chunk question : string) : string :=
  let nl := String "010" "" in
  Py.join nl
    [ "";
      "            Based ONLY on the following document content, answer the user's question.";
      "";
      "            Document content: " +:+ best_chunk;
      "";
      "            Question: " +:+ question;
      "";
      "            Instructions:";
      "            1. Answer only based on the provided document content";
      "            2. If the answer isn't in the document, say " +:+ dq
        +:+ "The document doesn't contain information to answer this question"
        +:+ dq;
      "            3. Provide the specific section/paragraph reference that supports your answer";
      "            4. Be accurate and don't make assumptions beyond what's stated";
      "";
      "            Format your response as:";
      "            Answer: [Your answer]";
      "            Reference: [Specific location in document that supports this answer]";
      "            " ].

(** The statements of the [try] block up to the parse of the reply; none
    of them touches [self.conversation_history]. *)
Definition answer_steps (model : collaborator)
    (question document_text : string) : result answer_record :=
  chunks ← TextUtils.chunk_text document_text 1500 150;
  best_chunk ← _find_relevant_chunk question chunks;
  let prompt := answer_prompt best_chunk question in
  let generation_config :=
    {| max_output_tokens := Settings.MAX_TOKENS;
       temperature := Settings.TEMPERATURE |} in
  text ← model prompt generation_config;
  _parse_answer (if Py.truthy_opt text then default "" text else "").

Definition error_record (e : exn) : answer_record :=
  {| answer := "Error processing question: " +:+ exn_str e;
     reference := "System error";
     confidence := 0%Q |}.

(** The state is [self.conversation_history]. *)
Definition answer_question (model : collaborator)
    (question document_text : string) : st (list exchange) answer_record :=
  try_catch
    (parsed ← lift (answer_steps model question document_text);
     _ ← modify (fun history =>
            history ++ [ {| ex_question := question;
                            ex_answer := answer parsed;
                            ex_reference := reference parsed |} ]);
     mret parsed)
    (fun e => mret (error_record e)).

(** The f-string of [generate_summary]. *)
Definition summary_prompt (key_content : string) : string :=
  let nl := String "010" "" in
  Py.join nl
    [ "";
      "            Summarize the following document in exactly 150 words or less. Focus on:";
      "            1. Main purpose/objective";
      "            2. Key findings or points";
      "            3. Important conclusions";
      "            ";
      "            Document content: " +:+ key_content;
      "            " ].

Definition summary_config : generation_config :=
  {| max_output_tokens := 200; temperature := (3 # 10)%Q |}.

(** [generate_summary] neither reads nor writes the history. *)
Definition generate_summary (model : collaborator) (document_text : string)
  : string :=
  let body : result string :=
    let key_sentences := TextUtils.extract_key_sentences document_text 8 in
    let key_content := Py.join " " key_sentences in
    let prompt := summary_prompt key_content in
    text ← model prompt summary_config;
    let content := if Py.truthy_opt text then default "" text else "" in
    let words := Py.split (Py.strip content) in
    Ok (Py.join " " (Py.slice_to words 150)
        +:+ (if (150 <? length words)%nat then "..." else "")) in
  match body with
  | Ok summary => summary
  | Raise e => "Error generating summary: " +:+ exn_str e
  end.

(** [get_conversation_context], a function of
    [self.conversation_history]. *)
Definition get_conversation_context (history : list exchange) : string :=
  let nl := String "010" "" in
  let context :=
    fold_left
      (fun context item =>
         context +:+ ("Q: " +:+ ex_question item +:+ nl
                        +:+ "A: " +:+ ex_answer item +:+ nl +:+ nl))
      (Py.slice history (-3) (Z.of_nat (length history)))
      ("Recent conversation:" +:+ nl) in
  if bool_decide (history = []) then "" else context.

Definition clear_history : st (list exchange) unit :=
  modify (fun _ => []).

End AIAssistant.

(** ** core/question_generator.py *)

Module QuestionGenerator.

Record challenge_question : Type := {
  question : string;
  expected_answer : string;
  type : string
}.

Record evaluation : Type := {
  score : Z;
  feedback : string;
  justification : string
}.

(** The generator of [random]: an unbounded sequence of draws and the
    position of the next one. *)
Record rng : Type := {
  draws : nat -> nat;
  pos : nat
}.

(** What a method of the generator can change: the random generator and
    the lines printed so far. *)
Record gen_state : Type := {
  random : rng;
  stdout : list string
}.

(** [random.choice(l)] *)
Definition random_choice {A : Type} (l : list A) : st gen_state A :=
  fun s =>
    let r := random s in
    let s' := {| random := {| draws := draws r; pos := S (pos r) |};
                 stdout := stdout s |} in
    match l !! (draws r (pos r) `mod` length l)%nat with
    | Some x => (Ok x, s')
    | None => (Raise (IndexError "Cannot choose from an empty sequence"), s)
    end.

(** [print(line)] *)
Definition print (line : string) : st gen_state unit :=
  modify (fun s => {| random := random s; stdout := stdout s ++ [line] |}).

Definition question_types : list string :=
  ["comprehension"; "inference"; "analysis"; "evaluation"].

(** The f-string of [_create_question_prompt]. *)
Definition _create_question_prompt (document_text : string) : string :=
  let nl := String "010" "" in
  let text_excerpt := Py.str_slice_to document_text 2000 in
  Py.join nl
    [ "";
      "        Based on the following document, generate exactly 3 challenging questions that test comprehension, inference, and analysis.";
      "        ";
      "        Document: " +:+ text_excerpt;
      "        ";
      "        Create questions that:";
      "        1. Require understanding of key concepts";
      "        2. Test ability to make inferences";
      "        3. Analyze relationships between ideas";
      "        ";
      "        Format each question as:";
      "        Q1: [Question]";
      "        A1: [Expected answer based on document]";
      "        ";
      "        Q2: [Question]";
      "        A2: [Expected answer based on document]";
      "        ";
      "        Q3: [Question]";
      "        A3: [Expected answer based on document]";
      "        " ].

(** The variables of the loop of [_parse_questions]. *)
Record parse_state : Type := {
  questions : list challenge_question;
  current_q : option string;
  current_a : option string
}.

(** [if current_q and current_a: questions.append({...})] *)
Definition flush (p : parse_state) : st gen_state (list challenge_question) :=
  match current_q p, current_a p with
  | Some q, Some a =>
      if Py.truthy q && Py.truthy a then
        t ← random_choice question_types;
        mret (questions p ++
                [ {| question := q; expected_answer := a; type := t |} ])
      else mret (questions p)
  | _, _ => mret (questions p)
  end.

Definition parse_line (p : parse_state) (line : string)
  : st gen_state parse_state :=
  let line := Py.strip line in
  if Py.startswith line "Q" && Py.has_char ":" line then
    qs ← flush p;
    v ← lift (Py.item (Py.split_max ":" 1 line) 1);
    mret {| questions := qs; current_q := Some (Py.strip v);
            current_a := None |}
  else if Py.startswith line "A" && Py.has_char ":" line
          && Py.truthy_opt (current_q p) then
    v ← lift (Py.item (Py.split_max ":" 1 line) 1);
    mret {| questions := questions p; current_q := current_q p;
            current_a := Some (Py.strip v) |}
  else mret p.

Fixpoint parse_lines (lines : list string) (p : parse_state)
  : st gen_state parse_state :=
  match lines with
  | [] => mret p
  | line :: rest => p' ← parse_line p line; parse_lines rest p'
  end.

Definition _parse_questions (questions_text : string)
  : st gen_state (list challenge_question) :=
  let lines := Py.split_on "010" (Py.strip questions_text) in
  p ← parse_lines lines
        {| questions := []; current_q := None; current_a := None |};
  qs ← flush p;
  mret (Py.slice_to qs 3).

(** The [try] block of the branch [line.startswith('Score:')]: [None]
    stands for the [ValueError] or [IndexError] the handler swallows. *)
Definition parse_score (line : string) : option Z :=
  match Py.split_on ":" line !! 1%nat with
  | None => None
  | Some piece =>
      let score_text := Py.strip piece in
      match Py.split_on "/" score_text !! 0%nat with
      | None => None
      | Some digits =>
          match Py.int digits with
          | None => None
          | Some score => Some (Z.max 1 (Z.min 5 score))
          end
      end
  end.

Fixpoint parse_evaluation_loop (lines : list string) (res : evaluation)
  : result evaluation :=
  match lines with
  | [] => Ok res
  | line :: rest =>
      let line := Py.strip line in
      if Py.startswith line "Score:" then
        parse_evaluation_loop rest
          match parse_score line with
          | Some s => {| score := s; feedback := feedback res;
                         justification := justification res |}
          | None => res
          end
      else if Py.startswith line "Feedback:" then
        v ← Py.item (Py.split_max ":" 1 line) 1;
        parse_evaluation_loop rest
          {| score := score res; feedback := Py.strip v;
             justification := justification res |}
      else if Py.startswith line "Justification:" then
        v ← Py.item (Py.split_max ":" 1 line) 1;
        parse_evaluation_loop rest
          {| score := score res; feedback := feedback res;
             justification := Py.strip v |}
      else parse_evaluation_loop rest res
  end.

Definition _parse_evaluation (evaluation_text : string) : result evaluation :=
  parse_evaluation_loop (Py.split_on "010" evaluation_text)
    {| score := 3; feedback := ""; justification := "" |}.

Definition _generate_fallback_questions (document_text : string)
  : list challenge_question :=
  [ {| question := "What are the main topics discussed in this document?";
       expected_answer :=
         "Based on the document content, identify key themes and subjects.";
       type := "comprehension" |};
    {| question :=
         "What conclusions can be drawn from the information presented?";
       expected_answer :=
         "Analyze the evidence and reasoning to identify logical conclusions.";
       type := "inference" |};
    {| question :=
         "How do the different sections of this document relate to each other?";
       expected_answer :=
         "Examine the structure and connections between different parts.";
       type := "analysis" |} ].

Definition generate_challenge_questions (model : collaborator)
    (document_text : string) : st gen_state (list challenge_question) :=
  try_catch
    (let prompt := _create_question_prompt document_text in
     let generation_config :=
       {| max_output_tokens := 800; temperature := (5 # 10)%Q |} in
     text ← lift (model prompt generation_config);
     let questions_text :=
       if Py.truthy_opt text then default "" text else "" in
     _parse_questions questions_text)
    (fun e =>
       _ ← print ("Error generating questions: " +:+ exn_str e);
       mret (_generate_fallback_questions document_text)).

(** The f-string of [evaluate_answer]. *)
Definition evaluation_prompt (question user_answer document_text
    correct_answer : string) : string :=
  let nl := String "010" "" in
  Py.join nl
    [ "";
      "            Document excerpt: " +:+ Py.str_slice_to document_text 1000 +:+ "...";
      "            ";
      "            Question: " +:+ question;
      "            Expected answer: " +:+ correct_answer;
      "            User's answer: " +:+ user_answer;
      "            ";
      "            Evaluate the user's answer on a scale of 1-5 and provide constructive feedback.";
      "            Consider:";
      "            1. Accuracy compared to document content";
      "            2. Completeness of the response";
      "            3. Understanding demonstrated";
      "            ";
      "            Format your response as:";
      "            Score: [1-5]";
      "            Feedback: [Your detailed feedback]";
      "            Justification: [Reference to specific document content]";
      "            " ].

Definition evaluation_config : generation_config :=
  {| max_output_tokens := 400; temperature := (3 # 10)%Q |}.

(** What [evaluate_answer] returns when anything fails. *)
Definition evaluation_unavailable : evaluation :=
  {| score := 3;
     feedback := "Unable to evaluate answer at this time.";
     justification := "System error occurred during evaluation." |}.

Definition evaluate_answer (model : collaborator)
    (question user_answer document_text correct_answer : string)
  : st gen_state evaluation :=
  try_catch
    (let prompt :=
       evaluation_prompt question user_answer document_text correct_answer in
     text ← lift (model prompt evaluation_config);
     let evaluation := if Py.truthy_opt text then default "" text else "" in
     lift (_parse_evaluation evaluation))
    (fun e =>
       _ ← print ("Error evaluating answer: " +:+ exn_str e);
       mret evaluation_unavailable).

(** A question as the dictionary it is in Python. *)
Definition as_dict (q : challenge_question) : gmap string string :=
  <["question" := question q]>
    (<["expected_answer" := expected_answer q]>
       (<["type" := type q]> ∅)).

(** What [get_question_statistics] returns; the key
    ["average_question_length"] is absent for an empty list. The average is
    the exact quotient, which Python rounds to a float. *)
Record statistics : Type := {
  total : nat;
  types : gmap string nat;
  average_question_length : option Q
}.

(** The body of the loop over the questions:
    [type_counts[q_type] = type_counts.get(q_type, 0) + 1]. *)
Definition count_type (type_counts : gmap string nat)
    (question : gmap string string) : gmap string nat :=
  let q_type := default "unknown" (question !! "type") in
  <[q_type := (default O (type_counts !! q_type) + 1)%nat]> type_counts.

(** [sum(len(str(q["question"])) for q in questions)]: [None] stands for the
    [KeyError] of a dictionary without the key. *)
Fixpoint total_question_length (questions : list (gmap string string))
  : option nat :=
  match questions with
  | [] => Some O
  | q :: rest =>
      match q !! "question" with
      | None => None
      | Some text =>
          match total_question_length rest with
          | None => None
          | Some n => Some (String.length text + n)%nat
          end
      end
  end.

(** [get_question_statistics]: [None] stands for the [KeyError]. *)
Definition get_question_statistics (questions : list (gmap string string))
  : option statistics :=
  if bool_decide (questions = []) then
    Some {| total := O; types := ∅; average_question_length := None |}
  else
    let type_counts := fold_left count_type questions ∅ in
    match total_question_length questions with
    | None => None
    | Some total_length =>
        Some {| total := length questions;
                types := type_counts;
                average_question_length :=
                  Some (Z.of_nat total_length
                        # Pos.of_nat (length questions))%Q |}
    end.

End QuestionGenerator.

(** ** The functions of [os.path] and of string formatting the sources use *)

Module OsPath.

(** [s.rfind(c)] for a one-character [c]: the last index of [c] in [s], or
    [-1]. [i] is the index of the head of [s] and [found] the last index
    seen. *)
Fixpoint rfind_go (c : ascii) (s : string) (i found : Z) : Z :=
  match s with
  | EmptyString => found
  | String d s' => rfind_go c s' (i + 1) (if (d =? c)%char then i else found)
  end.

Definition rfind (c : ascii) (s : string) : Z := rfind_go c s 0 (-1).

(** [s[:n]] and [s[n:]] for an index [n] that is not negative. *)
Fixpoint str_take (n : nat) (s : string) : string :=
  match n, s with
  | S n', String c s' => String c (str_take n' s')
  | _, _ => EmptyString
  end.

Fixpoint str_drop (n : nat) (s : string) : string :=
  match n, s with
  | S n', String _ s' => str_drop n' s'
  | _, _ => s
  end.

(** The [while] loop of [_splitext]: some character of [p] at an index from
    [filenameIndex] to [dotIndex - 1] is not a dot. [p] is given from the
    index [filenameIndex] on, and [count] is [dotIndex - filenameIndex]. *)
Fixpoint has_non_dot (count : nat) (p : string) : bool :=
  match count, p with
  | S count', String c p' =>
      if (c =? ".")%char then has_non_dot count' p' else true
  | _, _ => false
  end.

(** [os.path.splitext(p)] of [posixpath]: the extension starts at the last
    dot of the last component, unless only dots stand before it there. *)
Definition splitext (p : string) : string * string :=
  let sepIndex := rfind "/" p in
  let dotIndex := rfind "." p in
  if sepIndex <? dotIndex then
    let filenameIndex := sepIndex + 1 in
    if has_non_dot (Z.to_nat (dotIndex - filenameIndex))
                   (str_drop (Z.to_nat filenameIndex) p)
    then (str_take (Z.to_nat dotIndex) p, str_drop (Z.to_nat dotIndex) p)
    else (p, EmptyString)
  else (p, EmptyString).

(** [str(n)] of an integer. *)
Definition str_of_int (n : Z) : string := NilZero.string_of_int (Z.to_int n).

End OsPath.

(** ** utils/validators.py *)

Module Validators.

(** What [file.read()] gives. *)
Inductive file_content : Type :=
  | Bytes (b : list Byte.byte)
  | Text (s : string).

(** An uploaded file: its name, its size and what reading it gives. *)
Record uploaded_file : Type := {
  name : string;
  size : Z;
  read : result file_content
}.

Definition validate_file (file : option uploaded_file)
  : bool * option string :=
  match file with
  | None => (false, Some "No file uploaded")
  | Some file =>
      let file_extension := Py.lower (OsPath.splitext (name file)).2 in
      if negb (bool_decide (file_extension ∈ Settings.SUPPORTED_FORMATS)) then
        (false,
         Some ("Unsupported format. Please upload "
                 +:+ Py.join ", " Settings.SUPPORTED_FORMATS +:+ " files"))
      else if Settings.MAX_FILE_SIZE <? size file then
        (false,
         Some ("File too large. Maximum size: "
                 +:+ OsPath.str_of_int
                       (Settings.MAX_FILE_SIZE / (1024 * 1024)) +:+ "MB"))
      else (true, None)
  end.

Definition validate_question (question : string) : bool * option string :=
  if negb (Py.truthy question) || negb (Py.truthy (Py.strip question)) then
    (false, Some "Please enter a question")
  else if (String.length (Py.strip question) <? 5)%nat then
    (false, Some "Question too short. Please be more specific")
  else if (500 <? String.length question)%nat then
    (false, Some "Question too long. Please keep it under 500 characters")
  else (true, None).

Definition validate_text_content (text : string) : bool * option string :=
  if negb (Py.truthy text) || negb (Py.truthy (Py.strip text)) then
    (false, Some "No readable content found in the document")
  else if (String.length (Py.strip text) <? 50)%nat then
    (false, Some "Document content too short for meaningful analysis")
  else (true, None).

Definition validate_api_key (api_key : string) : bool * option string :=
  if negb (Py.truthy api_key) || negb (Py.truthy (Py.strip api_key)) then
    (false, Some "API key is required")
  else if (String.length (Py.strip api_key) <? 10)%nat then
    (false, Some "API key appears to be invalid (too short)")
  else (true, None).

End Validators.

(** ** core/document_processor.py *)

Module DocumentProcessor.

Import Validators.

(** An exception of this module is seen through [str(e)] only: a call
    returns a value or raises with a message. *)
Inductive outcome (A : Type) : Type :=
  | Returned (a : A)
  | Raised (message : string).
Arguments Returned {A} a.
Arguments Raised {A} message.

(** [PyPDF2.PdfReader(file)] and its [pages]: building the reader may
    raise, and so may [extract_text()] of a page, whose text may be absent. *)
Definition pdf_reader : Type :=
  uploaded_file -> result (list (result (option string))).

(** The loop of [_extract_pdf_text] over the pages. *)
Fixpoint extract_pages (pages : list (result (option string))) (text : string)
  : outcome string :=
  match pages with
  | [] => Returned text
  | page :: rest =>
      match page with
      | Raise e => Raised (exn_str e)
      | Ok page_text =>
          extract_pages rest
            (if Py.truthy_opt page_text
             then text +:+ default "" page_text +:+ String "010" ""
             else text)
      end
  end.

Definition _extract_pdf_text (reader : pdf_reader) (file : uploaded_file)
  : outcome string :=
  match reader file with
  | Raise e => Raised (exn_str e)
  | Ok pages => extract_pages pages ""
  end.

(** [content.decode('latin-1')]: every byte is the character of its code. *)
Definition decode_latin1 (content : list Byte.byte) : string :=
  string_of_list_byte content.

(** [_extract_txt_text]. [decode_utf8] is [content.decode('utf-8')], taken
    as given; [None] stands for its [UnicodeDecodeError]. *)
Definition _extract_txt_text (decode_utf8 : list Byte.byte -> option string)
    (file : uploaded_file) : outcome string :=
  match read file with
  | Ok (Bytes content) =>
      match decode_utf8 content with
      | Some text => Returned text
      | None => Returned (decode_latin1 content)
      end
  | Ok (Text content) => Returned content
  | Raise e => Raised ("Error reading text file: " +:+ exn_str e)
  end.

(** The [try] block of [process_file]: what it returns, or the message of
    what it raises. *)
Definition process_steps (reader : pdf_reader)
    (decode_utf8 : list Byte.byte -> option string)
    (uploaded_file : option uploaded_file)
  : outcome (bool * string * option string) :=
  match uploaded_file with
  | None => Raised "'NoneType' object has no attribute 'name'"
  | Some file =>
      let file_extension := Py.lower (OsPath.splitext (name file)).2 in
      let extracted :=
        if String.eqb file_extension ".pdf" then
          Some (_extract_pdf_text reader file)
        else if String.eqb file_extension ".txt" then
          Some (_extract_txt_text decode_utf8 file)
        else None in
      match extracted with
      | None =>
          Returned (false, "",
                    Some ("Unsupported file format: " +:+ file_extension))
      | Some (Raised message) => Raised message
      | Some (Returned text) =>
          if negb (Py.truthy (Py.strip text)) then
            Returned (false, "",
                      Some "No readable text found in the document")
          else
            let cleaned_text := TextUtils.clean_text text in
            Returned (true, cleaned_text, None)
      end
  end.

Definition process_file (reader : pdf_reader)
    (decode_utf8 : list Byte.byte -> option string)
    (uploaded_file : option uploaded_file) : bool * string * option string :=
  let '(is_valid, error_msg) := validate_file uploaded_file in
  if negb is_valid then (false, "", error_msg)
  else
    match process_steps reader decode_utf8 uploaded_file with
    | Returned r => r
    | Raised message =>
        (false, "", Some ("Error processing file: " +:+ message))
    end.

End DocumentProcessor.

(** ** app.py *)

Module App.

(** The entries of [st.session_state] the challenge flow reads and
    writes. *)
Record session_state : Type := {
  challenge_questions : list QuestionGenerator.challenge_question;
  document_text : string;
  current_question_index : Z
}.

Record app_state : Type := {
  session : session_state;
  generator : QuestionGenerator.gen_state
}.

(** [show_challenge_interface]: [clicked] is what [st.button] returns. The
    rerun after the store only restarts the script, and the branch that
    shows the questions already held writes nothing here. *)
Definition show_challenge_interface (model : collaborator) (clicked : bool)
  : st app_state unit :=
  fun a =>
    let ss := session a in
    if negb (bool_decide (challenge_questions ss = [])) then (Ok tt, a)
    else if clicked then
      match QuestionGenerator.generate_challenge_questions
              model (document_text ss) (generator a) with
      | (Ok qs, g') =>
          (Ok tt,
           {| session :=
                {| challenge_questions := qs;
                   document_text := document_text ss;
                   current_question_index := current_question_index ss |};
              generator := g' |})
      | (Raise e, g') => (Raise e, {| session := ss; generator := g' |})
      end
    else (Ok tt, a).

End App.

(** ** app.py: the challenge flow

    One run of the script in the mode "Challenge Me" with a document loaded.
    What the widgets return in the run is an input; the calls that only
    display are left out; [st.rerun()] ends the run. *)

Module ChallengeFlow.

Import QuestionGenerator App.

(** The session entries of the flow, with the generator's state. *)
Record flow_state : Type := {
  app : app_state;
  user_answers : gmap Z string;
  evaluations : gmap Z evaluation
}.

(** What the widgets of a run return. *)
Record widgets : Type := {
  generate_clicked : bool;
  user_answer : string;
  submit_clicked : bool;
  next_clicked : bool;
  try_new_clicked : bool;
  upload_new_clicked : bool
}.

(** What a run shows. *)
Inductive page : Type :=
  | GeneratePage
  | QuestionPage (index : Z)
  | ResultsPage
  | ErrorPage (e : exn).

(** The defaults of [initialize_session_state], for a document. *)
Definition initial_session (document : string) : session_state :=
  {| challenge_questions := [];
     document_text := document;
     current_question_index := 0 |}.

(** [l[i]] for an integer [i]: a negative index counts from the end. *)
Definition index {A : Type} (l : list A) (i : Z) : result A :=
  let len := Z.of_nat (length l) in
  let k := if i <? 0 then i + len else i in
  if (k <? 0) || (len <=? k)
  then Raise (IndexError "list index out of range")
  else Py.item l (Z.to_nat k).

(** [evaluate_answer] of app.py: the evaluation and the answer are stored
    under the index of the question. *)
Definition evaluate_answer (model : collaborator) (question_idx : Z)
    (answer : string) (question_data : challenge_question) (s : flow_state)
  : flow_state :=
  let ss := session (app s) in
  let '(r, g') :=
    QuestionGenerator.evaluate_answer model (question question_data) answer
      (document_text ss) (expected_answer question_data)
      (generator (app s)) in
  match r with
  | Ok evaluation =>
      {| app := {| session := ss; generator := g' |};
         user_answers := <[question_idx := answer]> (user_answers s);
         evaluations := <[question_idx := evaluation]> (evaluations s) |}
  | Raise _ =>
      {| app := {| session := ss; generator := g' |};
         user_answers := user_answers s;
         evaluations := evaluations s |}
  end.

(** The buttons of [show_challenge_results]: a new challenge forgets the
    questions, the index, the answers and the evaluations; a new document
    resets the session, whose entries get their defaults back at the start
    of the next run. *)
Definition show_challenge_results (w : widgets) (s : flow_state) : flow_state :=
  if try_new_clicked w then
    {| app :=
         {| session :=
              {| challenge_questions := [];
                 document_text := document_text (session (app s));
                 current_question_index := 0 |};
            generator := generator (app s) |};
       user_answers := ∅;
       evaluations := ∅ |}
  else if upload_new_clicked w then
    {| app := {| session := initial_session "";
                 generator := generator (app s) |};
       user_answers := ∅;
       evaluations := ∅ |}
  else s.

Definition show_challenge_questions (model : collaborator) (w : widgets)
    (s : flow_state) : flow_state * page :=
  let ss := session (app s) in
  let questions := challenge_questions ss in
  let current_idx := current_question_index ss in
  if current_idx <? Z.of_nat (length questions) then
    match index questions current_idx with
    | Raise e => (s, ErrorPage e)
    | Ok question_data =>
        if submit_clicked w && Py.truthy (Py.strip (user_answer w)) then
          (evaluate_answer model current_idx (user_answer w) question_data s,
           QuestionPage current_idx)
        else if (current_idx <? Z.of_nat (length questions) - 1)
                && next_clicked w then
          ({| app :=
                {| session :=
                     {| challenge_questions := questions;
                        document_text := document_text ss;
                        current_question_index := current_idx + 1 |};
                   generator := generator (app s) |};
              user_answers := user_answers s;
              evaluations := evaluations s |},
           QuestionPage current_idx)
        else (s, QuestionPage current_idx)
    end
  else (show_challenge_results w s, ResultsPage).

(** One run of [show_challenge_interface], both branches. *)
Definition run (model : collaborator) (w : widgets) (s : flow_state)
  : flow_state * page :=
  if bool_decide (challenge_questions (session (app s)) = []) then
    match show_challenge_interface model (generate_clicked w) (app s) with
    | (Ok _, a') =>
        ({| app := a'; user_answers := user_answers s;
            evaluations := evaluations s |}, GeneratePage)
    | (Raise e, a') =>
        ({| app := a'; user_answers := user_answers s;
            evaluations := evaluations s |}, ErrorPage e)
    end
  else show_challenge_questions model w s.

(** What can happen between two looks at the session: a run of the flow, or
    the upload of a new document, which resets the session and stores the
    text of the document. *)
Inductive event : Type :=
  | Run (w : widgets)
  | NewDocument (document : string).

Definition step (model : collaborator) (s : flow_state) (ev : event)
  : flow_state :=
  match ev with
  | Run w => (run model w s).1
  | NewDocument document =>
      {| app := {| session := initial_session document;
                   generator := generator (app s) |};
         user_answers := ∅;
         evaluations := ∅ |}
  end.

(** The state of a session that starts with a document. *)
Definition start (document : string) (g : gen_state) : flow_state :=
  {| app := {| session := initial_session document; generator := g |};
     user_answers := ∅;
     evaluations := ∅ |}.

End ChallengeFlow.

(** * Vocabulary of the statements *)

(** No character of [s] is [c]. *)
Fixpoint free_of (c : ascii) (s : string) : Prop :=
  match s with
  | EmptyString => True
  | String d s' => d <> c /\ free_of c s'
  end.

(** What the scan of [_find_relevant_chunk] has established after the chunks
    [seen], for the score [ov] of a chunk: the best chunk is among them, at
    the first position that reaches the best score. *)
Definition scan_inv (ov : string -> nat) (seen : list string)
    (best : string * nat) : Prop :=
  exists i : nat,
    seen !! i = Some best.1
    /\ best.2 = ov best.1
    /\ (forall (j : nat) c, seen !! j = Some c -> (ov c <= best.2)%nat)
    /\ (forall (j : nat) c, (j < i)%nat -> seen !! j = Some c ->
                            (ov c < best.2)%nat).

(** The generation options of [generate_challenge_questions]. *)
Definition question_config : generation_config :=
  {| max_output_tokens := 800; temperature := (5 # 10)%Q |}.

(** The reply the question parser reads: an absent text counts as empty. *)
Definition reply_text (text : option string) : string :=
  if Py.truthy_opt text then default "" text else "".

(** The caller of the challenge flow, after a click on an application state
    [a], holds the fixed fallback questions. *)
Definition caller_substitutes_fallback (model : collaborator)
    (a : App.app_state) : Prop :=
  exists a',
    App.show_challenge_interface model true a = (Ok tt, a')
    /\ App.challenge_questions (App.session a')
       = QuestionGenerator._generate_fallback_questions
           (App.document_text (App.session a)).

(** A collaborator that answers with one well-formed pair. *)
Definition one_pair_model : collaborator :=
  fun _ _ => Ok (Some ("Q1: What is the topic?" +:+ String "010"
                         "A1: The topic is tea.")).

(** An application state with a document and no questions yet. *)
Definition fresh_app_state : App.app_state :=
  {| App.session :=
       {| App.challenge_questions := [];
          App.document_text := "Tea is a drink.";
          App.current_question_index := 0 |};
     App.generator :=
       {| QuestionGenerator.random :=
            {| QuestionGenerator.draws := fun n => n;
               QuestionGenerator.pos := O |};
          QuestionGenerator.stdout := [] |} |}.

(** The number of occurrences of [sub] in [s]: the positions of [s] at which
    [sub] starts. *)
Fixpoint occurrences (sub s : string) : nat :=
  ((if String.prefix sub s then 1 else 0)
   + match s with
     | EmptyString => 0
     | String _ s' => occurrences sub s'
     end)%nat.

(** The score as the specification words it: the number of case-insensitive
    occurrences, in the sentence, of the terms of the vocabulary. *)
Definition occurrence_score (sentence : string) : nat :=
  foldr (fun word total =>
           (occurrences (Py.lower word) (Py.lower sentence) + total)%nat)
        O TextUtils.important_words.

(** The number of terms of the vocabulary that occur at all. *)
Definition present_terms (sentence : string) : nat :=
  length (List.filter
            (fun word =>
               (0 <? occurrences (Py.lower word) (Py.lower sentence))%nat)
            TextUtils.important_words).

(** [x] may stand in front of [y]: the key of [y] is not greater. *)
Definition not_after (x y : nat * string) : Prop :=
  TextUtils.key_gtb (TextUtils.sort_key y) (TextUtils.sort_key x) = false.

(** Every character of [s] satisfies [p]. *)
Fixpoint all_chars (p : ascii -> bool) (s : string) : bool :=
  match s with
  | EmptyString => true
  | String c s' => p c && all_chars p s'
  end.

(** A word: not empty and free of whitespace. *)
Definition token (w : string) : Prop :=
  w <> "" /\ all_chars (fun c => negb (Py.isspace c)) w = true.

(** The words of the chunks, put together again: the first chunk whole, and
    every later chunk without its first [overlap] words. *)
Definition reconstruct (overlap : nat) (chunks : list string) : list string :=
  match chunks with
  | [] => []
  | c :: cs =>
      Py.split c ++ concat (map (fun c' => drop overlap (Py.split c')) cs)
  end.

(** Two whitespace characters stand next to each other in [s]. *)
Fixpoint consecutive_ws (s : string) : bool :=
  match s with
  | String c (String d _ as s') =>
      (Py.isspace c && Py.isspace d) || consecutive_ws s'
  | _ => false
  end.

(** The first character of [s] is whitespace. *)
Definition starts_with_ws (s : string) : bool :=
  match s with
  | EmptyString => false
  | String c _ => Py.isspace c
  end.

(** The last character of [s] is whitespace. *)
Fixpoint ends_with_ws (s : string) : bool :=
  match s with
  | EmptyString => false
  | String c EmptyString => Py.isspace c
  | String _ s' => ends_with_ws s'
  end.

(** A question the challenge flow can show: a question and an expected
    answer that are not empty, and one of the four types. *)
Definition well_formed (q : QuestionGenerator.challenge_question) : Prop :=
  QuestionGenerator.question q <> ""
  /\ QuestionGenerator.expected_answer q <> ""
  /\ QuestionGenerator.type q ∈ QuestionGenerator.question_types.

(** The number of dictionaries whose type, ["unknown"] when the key is
    missing, is [t]. *)
Definition count_of_type (t : string) (questions : list (gmap string string))
  : nat :=
  length (List.filter
            (fun q => String.eqb (default "unknown" (q !! "type")) t)
            questions).

(** The sum of the counts of a dictionary of counts. *)
Definition sum_counts (counts : gmap string nat) : nat :=
  map_fold (fun _ c total => (c + total)%nat) O counts.

(** The dictionary of counts holds, for every type, the number of the
    questions seen that have it, and no entry for a type none has. *)
Definition counts_of (counts : gmap string nat)
    (seen : list (gmap string string)) : Prop :=
  forall t, counts !! t
            = if decide (count_of_type t seen = O) then None
              else Some (count_of_type t seen).

(** What the challenge flow keeps true of its state: the index of the
    current question is not negative and, unless it is 0, below the number
    of questions; every stored evaluation belongs to one of the questions,
    has a score from 1 to 5, and has its answer stored with it. *)
Definition flow_inv (s : ChallengeFlow.flow_state) : Prop :=
  let ss := App.session (ChallengeFlow.app s) in
  let len := Z.of_nat (length (App.challenge_questions ss)) in
  0 <= App.current_question_index ss
  /\ (App.current_question_index ss = 0
      \/ App.current_question_index ss < len)
  /\ forall k ev,
       ChallengeFlow.evaluations s !! k = Some ev ->
       0 <= k < len
       /\ 1 <= QuestionGenerator.score ev <= 5
       /\ is_Some (ChallengeFlow.user_answers s !! k).

(** A question/answer pair of a reply in the format the prompt asks for:
    a line ["Q<label>: <question>"] and a line ["A<label>: <answer>"]. *)
Record reply_pair : Type := {
  q_label : string;
  q_text : string;
  a_label : string;
  a_text : string
}.

(** A label holds neither a colon nor a line feed. *)
Definition clean_label (l : string) : Prop :=
  free_of ":" l /\ free_of "010" l.

(** A value is not empty, on one line, and without whitespace at its
    ends. *)
Definition clean_value (v : string) : Prop :=
  v <> "" /\ starts_with_ws v = false /\ ends_with_ws v = false
  /\ free_of "010" v.

Definition clean_pair (p : reply_pair) : Prop :=
  clean_label (q_label p) /\ clean_value (q_text p)
  /\ clean_label (a_label p) /\ clean_value (a_text p).

Fixpoint reply_lines (pairs : list reply_pair) : list string :=
  match pairs with
  | [] => []
  | p :: rest =>
      ("Q" +:+ q_label p +:+ ": " +:+ q_text p)
        :: ("A" +:+ a_label p +:+ ": " +:+ a_text p)
        :: reply_lines rest
  end.

(** The reply that states the pairs, one line after the other. *)
Definition reply_of (pairs : list reply_pair) : string :=
  Py.join (String "010" "") (reply_lines pairs).

(** The question and the expected answer of a parsed question. *)
Definition texts_of (q : QuestionGenerator.challenge_question)
  : string * string :=
  (QuestionGenerator.question q, QuestionGenerator.expected_answer q).

(** The pair the parser is holding, if it has both parts. *)
Definition pending (p : QuestionGenerator.parse_state)
  : list (string * string) :=
  match QuestionGenerator.current_q p, QuestionGenerator.current_a p with
  | Some q, Some a => [(q, a)]
  | _, _ => []
  end.

(** The parser holds nothing, or a question and an answer that are not
    empty. *)
Definition holds_pair (st : QuestionGenerator.parse_state) : Prop :=
  (QuestionGenerator.current_q st = None /\ QuestionGenerator.current_a st = None)
  \/ exists q a, QuestionGenerator.current_q st = Some q /\ QuestionGenerator.current_a st = Some a
                 /\ q <> "" /\ a <> "".

(** * Properties *)

#[local] Arguments String.append : simpl nomatch.

(** ** Strings *)

Section StringFacts.

Lemma append_nil_r (s : string) : s +:+ "" = s.
Proof. induction s as [|c s IH]; simpl; [done | by rewrite IH]. Qed.

Lemma append_assoc (s t u : string) : (s +:+ t) +:+ u = s +:+ (t +:+ u).
Proof. induction s as [|c s IH]; simpl; [done | by rewrite IH]. Qed.

Lemma append_length (s t : string) :
  String.length (s +:+ t) = (String.length s + String.length t)%nat.
Proof. induction s as [|c s IH]; simpl; [done | by rewrite IH]. Qed.

Lemma eqb_empty_false (c : ascii) (s : string) :
  String.eqb (String c s) "" = false.
Proof. done. Qed.

(** A string that starts with [p] is [p] followed by something. *)
Lemma prefix_app (p s : string) :
  String.prefix p s = true -> exists rest, s = p +:+ rest.
Proof.
  revert s. induction p as [|a p IH]; intros s H.
  - exists s. done.
  - destruct s as [|b s]; simpl in H; [done |].
    destruct (ascii_dec a b) as [->|]; [| done].
    destruct (IH s H) as [rest ->]. exists rest. done.
Qed.

Lemma prefix_of_app (p rest : string) : String.prefix p (p +:+ rest) = true.
Proof.
  induction p as [|a p IH]; simpl; [by destruct rest |].
  destruct (ascii_dec a a); [done | congruence].
Qed.

Lemma split_max_0 (sep : ascii) (s : string) : Py.split_max sep 0 s = [s].
Proof. by destruct s. Qed.

(** Splitting once at the first separator. *)
Lemma split_max_first (sep : ascii) (pre post : string) :
  free_of sep pre ->
  Py.split_max sep 1 (pre +:+ String sep post) = [pre; post].
Proof.
  induction pre as [|c pre IH]; simpl; intros Hfree.
  - by rewrite Ascii.eqb_refl, split_max_0.
  - destruct Hfree as [Hc Hfree].
    apply Ascii.eqb_neq in Hc. rewrite Hc.
    by rewrite (IH Hfree).
Qed.

(** The value after a label: the second piece exists whenever the line
    starts with a label that ends in the separator. *)
Lemma label_value (label line : string) :
  free_of ":" label ->
  Py.startswith line (label +:+ ":") = true ->
  exists v, Py.item (Py.split_max ":" 1 line) 1 = Ok v.
Proof.
  intros Hfree Hpre. apply prefix_app in Hpre as [rest ->].
  rewrite append_assoc. simpl.
  rewrite split_max_first by done. by exists rest.
Qed.

End StringFacts.

(** ** Evaluation parsing *)

Section Evaluation.

Import QuestionGenerator.

Lemma parse_score_range (line : string) (s : Z) :
  parse_score line = Some s -> 1 <= s <= 5.
Proof.
  unfold parse_score. intros H.
  repeat case_match; simplify_eq. lia.
Qed.

(** The loop never raises, and a score that is in range stays in range. *)
Lemma parse_evaluation_loop_range (lines : list string) (res : evaluation) :
  1 <= score res <= 5 ->
  exists ev, parse_evaluation_loop lines res = Ok ev /\ 1 <= score ev <= 5.
Proof.
  revert res. induction lines as [|line lines IH]; intros res Hres; simpl.
  - by exists res.
  - destruct (Py.startswith (Py.strip line) "Score:") eqn:Hs.
    { apply IH. destruct (parse_score _) eqn:Hp; [| done].
      simpl. by apply parse_score_range in Hp. }
    destruct (Py.startswith (Py.strip line) "Feedback:") eqn:Hf.
    { destruct (label_value "Feedback" (Py.strip line)) as [v ->];
        [by repeat split | done |].
      simpl. by apply IH. }
    destruct (Py.startswith (Py.strip line) "Justification:") eqn:Hj.
    { destruct (label_value "Justification" (Py.strip line)) as [v ->];
        [by repeat split | done |].
      simpl. by apply IH. }
    by apply IH.
Qed.

(** C3: for every evaluation reply, [_parse_evaluation] returns a record
    whose score is an integer between 1 and 5; the line ["Score: 4/5"]
    gives 4, ["Score: 9"] gives the clamped 5, and ["Score: abc"] leaves the
    default 3. *)
Theorem parse_evaluation_score_clamped :
  (forall evaluation_text : string,
      exists ev, _parse_evaluation evaluation_text = Ok ev
                 /\ 1 <= score ev <= 5)
  /\ score <$> _parse_evaluation "Score: 4/5" = Ok 4
  /\ score <$> _parse_evaluation "Score: 9" = Ok 5
  /\ score <$> _parse_evaluation "Score: abc" = Ok 3.
Proof.
  split; [| by vm_compute].
  intros evaluation_text. unfold _parse_evaluation.
  apply parse_evaluation_loop_range. simpl. lia.
Qed.

End Evaluation.

(** ** Relevant-chunk selection *)

Section Selection.

Import AIAssistant.

Variable question_words : gset string.

#[local] Abbreviation ov := (overlap question_words).
#[local] Abbreviation scan_inv := (scan_inv ov).

Lemma scan_inv_step (seen : list string) (best : string * nat) (c : string) :
scan_inv seen best ->
scan_inv (seen ++ [c]) (scan_step question_words best c).
Proof.
intros (i & Hi & Hsc & Hmax & Hfirst). unfold scan_step.
destruct (best.2 <? ov c)%nat eqn:Hlt.
- apply Nat.ltb_lt in Hlt. exists (length seen). simpl.
  split; [by rewrite lookup_app_r, Nat.sub_diag by lia |].
  split; [done |]. split.
  + intros j d Hj. apply lookup_app_Some in Hj as [Hj | [_ Hj]].
    * specialize (Hmax j d Hj). lia.
    * apply list_lookup_singleton_Some in Hj as [_ <-]. lia.
  + intros j d Hlen Hj. rewrite lookup_app_l in Hj by done.
    specialize (Hmax j d Hj). lia.
- apply Nat.ltb_ge in Hlt. exists i.
  split; [by apply lookup_app_l_Some |].
  split; [done |]. split.
  + intros j d Hj. apply lookup_app_Some in Hj as [Hj | [_ Hj]].
    * by apply (Hmax j).
    * by apply list_lookup_singleton_Some in Hj as [_ <-].
  + intros j d Hlt' Hj. apply (Hfirst j d Hlt').
    apply lookup_lt_Some in Hi.
    by rewrite lookup_app_l in Hj by lia.
Qed.

Lemma scan_inv_fold (rest seen : list string) (best : string * nat) :
scan_inv seen best ->
scan_inv (seen ++ rest) (fold_left (scan_step question_words) rest best).
Proof.
revert seen best. induction rest as [|c rest IH]; intros seen best Hinv.
- by rewrite app_nil_r.
- simpl. rewrite (cons_middle c seen rest), app_assoc.
  apply IH. by apply scan_inv_step.
Qed.

Lemma scan_inv_first (c : string) :
scan_inv [c] (scan_step question_words (c, O) c).
Proof.
unfold scan_step. simpl. exists O.
destruct (0 <? ov c)%nat eqn:Hlt; simpl.
- split_and!; [done | done | | intros; lia].
  intros j d Hj. by apply list_lookup_singleton_Some in Hj as [_ <-].
- apply Nat.ltb_ge in Hlt.
  split_and!; [done | lia | | intros; lia].
  intros j d Hj. apply list_lookup_singleton_Some in Hj as [_ <-]. lia.
Qed.

End Selection.



(** ** Answer parsing and the conversation history *)

Section Answers.

Import AIAssistant.

(** Lines without a label leave the record as it is. *)
Lemma parse_answer_loop_no_label (lines : list string) (res : answer_record) :
  (forall line, line ∈ lines -> Py.startswith line "Answer:" = false) ->
  (forall line, line ∈ lines -> Py.startswith line "Reference:" = false) ->
  parse_answer_loop lines res = Ok res.
Proof.
  induction lines as [|line lines IH]; intros Ha Hr; simpl; [done |].
  rewrite (Ha line), (Hr line) by apply list_elem_of_here.
  apply IH; intros l Hl; [apply Ha | apply Hr]; by apply list_elem_of_further.
Qed.

(** C6: a reply with no line that starts with ["Answer:"] and no line that
    starts with ["Reference:"] is parsed into a record whose answer is the
    whole reply, trimmed, and whose reference is the literal
    ["General document content"]. *)
Theorem parse_answer_without_labels (answer_text : string) :
  (forall line, line ∈ Py.splitlines answer_text ->
                Py.startswith line "Answer:" = false) ->
  (forall line, line ∈ Py.splitlines answer_text ->
                Py.startswith line "Reference:" = false) ->
  exists res,
    _parse_answer answer_text = Ok res
    /\ answer res = Py.strip answer_text
    /\ reference res = "General document content".
Proof.
  intros Ha Hr. unfold _parse_answer.
  rewrite parse_answer_loop_no_label by done. simpl. eauto.
Qed.

Lemma parse_answer_without_labels_witness :
  exists res,
    _parse_answer " The document is about cats. " = Ok res
    /\ answer res = "The document is about cats."
    /\ reference res = "General document content".
Proof.
  apply (parse_answer_without_labels " The document is about cats. ");
    intros line Hl; vm_compute in Hl;
    apply list_elem_of_singleton in Hl; by subst.
Defined.

(** On the success path the exchange is appended, once, at the end. *)
Lemma answer_question_success (model : collaborator)
    (question document_text : string) (history : list exchange)
    (parsed : answer_record) :
  answer_steps model question document_text = Ok parsed ->
  answer_question model question document_text history
  = (Ok parsed,
     history ++ [ {| ex_question := question; ex_answer := answer parsed;
                     ex_reference := reference parsed |} ]).
Proof.
  intros H. unfold answer_question, try_catch, lift, modify, mbind, st_bind.
  by rewrite H.
Qed.

(** C10: when the collaborator call, or a step of [answer_question] before
    the reply has been parsed, raises, the conversation history after the
    call is the history before it, and the record returned is the error
    record, whose reference is ["System error"]. *)
Theorem answer_question_failure_keeps_history (model : collaborator)
    (question document_text : string) (history : list exchange) (e : exn) :
  answer_steps model question document_text = Raise e ->
  exists rec,
    answer_question model question document_text history = (Ok rec, history)
    /\ reference rec = "System error"
    /\ answer rec = "Error processing question: " +:+ exn_str e.
Proof.
  intros H. exists (error_record e).
  unfold answer_question, try_catch, lift, modify, mbind, st_bind.
  by rewrite H.
Qed.

(** A failing collaborator makes the steps fail, whatever the document. *)
Lemma answer_steps_collaborator_failure (model : collaborator)
    (question document_text : string) (e : exn) :
  (forall prompt config, model prompt config = Raise e) ->
  exists e', answer_steps model question document_text = Raise e'.
Proof.
  intros Hm. unfold answer_steps.
  destruct (TextUtils.chunk_text document_text 1500 150) as [chunks|e1];
    simpl; [| by eauto].
  destruct (_find_relevant_chunk question chunks) as [best|e2];
    simpl; [| by eauto].
  rewrite Hm. simpl. eauto.
Qed.

Lemma answer_question_failure_keeps_history_witness :
  exists rec,
    answer_question (fun _ _ => Raise (CollaboratorError "timeout"))
      "What is the result?" "The result is 42."
      [ {| ex_question := "q"; ex_answer := "a"; ex_reference := "r" |} ]
    = (Ok rec,
       [ {| ex_question := "q"; ex_answer := "a"; ex_reference := "r" |} ])
    /\ reference rec = "System error"
    /\ answer rec = "Error processing question: timeout".
Proof.
  apply (answer_question_failure_keeps_history
           (fun _ _ => Raise (CollaboratorError "timeout"))
           "What is the result?" "The result is 42." _
           (CollaboratorError "timeout")).
  by vm_compute.
Defined.

End Answers.

(** ** Challenge questions *)

Section Challenge.

Import QuestionGenerator App.

(** C4: when the collaborator call of [generate_challenge_questions] raises,
    the method returns normally, and what it returns is the list of the 3
    fixed fallback questions; each has a non-empty question, a non-empty
    expected answer and a type among the 4 fixed categories. The failure is
    printed, and the random generator is not used. *)
Theorem generate_challenge_questions_fallback (model : collaborator)
    (document_text : string) (s : gen_state) (e : exn) :
  model (_create_question_prompt document_text) question_config = Raise e ->
  exists s',
    generate_challenge_questions model document_text s
    = (Ok (_generate_fallback_questions document_text), s')
    /\ random s' = random s
    /\ stdout s' = stdout s ++ ["Error generating questions: " +:+ exn_str e]
    /\ length (_generate_fallback_questions document_text) = 3%nat
    /\ Forall (fun q => question q <> "" /\ expected_answer q <> ""
                        /\ type q ∈ question_types)
              (_generate_fallback_questions document_text).
Proof.
  intros H. unfold generate_challenge_questions, try_catch, lift.
  unfold question_config in H.
  unfold mbind at 1. unfold st_bind. rewrite H.
  eexists. split; [reflexivity |]. simpl.
  split_and!; [done | done | done |].
  repeat constructor; simpl; try done; unfold question_types; set_solver.
Qed.

Lemma generate_challenge_questions_fallback_witness :
  exists s',
    generate_challenge_questions
      (fun _ _ => Raise (CollaboratorError "quota exceeded"))
      "Tea is a drink." (generator fresh_app_state)
    = (Ok (_generate_fallback_questions "Tea is a drink."), s')
    /\ random s' = random (generator fresh_app_state)
    /\ stdout s' = stdout (generator fresh_app_state)
                   ++ ["Error generating questions: " +:+
                       exn_str (CollaboratorError "quota exceeded")]
    /\ length (_generate_fallback_questions "Tea is a drink.") = 3%nat
    /\ Forall (fun q => question q <> "" /\ expected_answer q <> ""
                        /\ type q ∈ question_types)
              (_generate_fallback_questions "Tea is a drink.").
Proof.
  apply (generate_challenge_questions_fallback
           (fun _ _ => Raise (CollaboratorError "quota exceeded"))
           "Tea is a drink." (generator fresh_app_state)
           (CollaboratorError "quota exceeded")).
  reflexivity.
Defined.

(** The generator hands on what the parser returns. *)
Lemma generate_challenge_questions_parsed (model : collaborator)
    (document_text : string) (s : gen_state) (text : option string) :
  model (_create_question_prompt document_text) question_config = Ok text ->
  forall qs s',
    _parse_questions (reply_text text) s = (Ok qs, s') ->
    generate_challenge_questions model document_text s = (Ok qs, s').
Proof.
  intros H qs s' Hp. unfold generate_challenge_questions, try_catch, lift.
  unfold question_config in H. unfold reply_text in Hp.
  unfold mbind at 1. unfold st_bind. by rewrite H, Hp.
Qed.

(** C7, as the code has it: when the reply parses, without an exception, into
    fewer than 3 question/answer pairs, [generate_challenge_questions]
    returns that partial (possibly empty) list as it is, which is not the
    fallback set, and the caller [show_challenge_interface] stores that very
    list in the session: it substitutes nothing. *)
Theorem partial_questions_are_kept (model : collaborator) (a : app_state)
    (text : option string) (qs : list challenge_question) (g' : gen_state) :
  challenge_questions (session a) = [] ->
  model (_create_question_prompt (document_text (session a))) question_config
  = Ok text ->
  _parse_questions (reply_text text) (generator a) = (Ok qs, g') ->
  (length qs < 3)%nat ->
  generate_challenge_questions model (document_text (session a)) (generator a)
  = (Ok qs, g')
  /\ qs <> _generate_fallback_questions (document_text (session a))
  /\ exists a',
       show_challenge_interface model true a = (Ok tt, a')
       /\ challenge_questions (session a') = qs
       /\ generator a' = g'.
Proof.
  intros Hempty Hm Hp Hlen.
  pose proof (generate_challenge_questions_parsed _ _ _ _ Hm _ _ Hp) as Hg.
  split; [done |]. split.
  - intros ->. simpl in Hlen. lia.
  - unfold show_challenge_interface. rewrite Hempty, Hg. simpl. eauto.
Qed.

Lemma partial_questions_are_kept_witness :
  exists qs g',
    generate_challenge_questions one_pair_model
      (document_text (session fresh_app_state)) (generator fresh_app_state)
    = (Ok qs, g')
    /\ length qs = 1%nat
    /\ exists a',
         show_challenge_interface one_pair_model true fresh_app_state
         = (Ok tt, a')
         /\ challenge_questions (session a') = qs.
Proof.
  destruct (_parse_questions
              (reply_text (Some ("Q1: What is the topic?" +:+ String "010"
                                   "A1: The topic is tea.")))
              (generator fresh_app_state)) as [r g'] eqn:Hp.
  vm_compute in Hp. injection Hp as <- <-.
  edestruct (partial_questions_are_kept one_pair_model fresh_app_state)
    as (Hg & _ & a' & Ha & Hq & _);
    [reflexivity | reflexivity | by vm_compute | simpl; lia |].
  eexists _, _. split; [exact Hg |]. split; [done |].
  exists a'. by split.
Defined.

(** C7 as stated fails: the reply of [one_pair_model] parses into a single
    pair, and after the click the session holds that single question, not
    the three fallback questions. *)
Lemma caller_does_not_substitute_fallback :
  (exists qs g',
      _parse_questions
        (reply_text (Some ("Q1: What is the topic?" +:+ String "010"
                             "A1: The topic is tea.")))
        (generator fresh_app_state) = (Ok qs, g')
      /\ (length qs < 3)%nat)
  /\ ~ caller_substitutes_fallback one_pair_model fresh_app_state.
Proof.
  split.
  - eexists _, _. split; [by vm_compute | simpl; lia].
  - intros (a' & Ha & Hq). vm_compute in Ha. injection Ha as <-.
    vm_compute in Hq. discriminate Hq.
Qed.

End Challenge.

(** ** Key sentences: the score *)

Section Scores.

Import TextUtils.

Lemma contains_cons (sub : string) (c : ascii) (s : string) :
  Py.contains sub (String c s)
  = String.prefix sub (String c s) || Py.contains sub s.
Proof. done. Qed.

Lemma occurrences_cons (sub : string) (c : ascii) (s : string) :
  occurrences sub (String c s)
  = ((if String.prefix sub (String c s) then 1 else 0)
     + occurrences sub s)%nat.
Proof. done. Qed.

Lemma contains_occurrences (sub s : string) :
  Py.contains sub s = (0 <? occurrences sub s)%nat.
Proof.
  induction s as [|c s IH].
  - by destruct sub.
  - rewrite contains_cons, occurrences_cons, IH.
    destruct (String.prefix sub (String c s)); [done |].
    by destruct (occurrences sub s).
Qed.

Lemma score_sentence_present (sentence : string) :
  score_sentence sentence = present_terms sentence.
Proof.
  unfold score_sentence, present_terms. f_equal.
  apply List.filter_ext. intros word. apply contains_occurrences.
Qed.

Lemma filter_length_le_total (f : string -> nat) (words : list string) :
  (length (List.filter (fun w => (0 <? f w)%nat) words)
   <= foldr (fun w total => (f w + total)%nat) O words)%nat.
Proof.
  induction words as [|w words IH]; simpl; [lia |].
  destruct (0 <? f w)%nat eqn:Hw; simpl; [| lia].
  apply Nat.ltb_lt in Hw. lia.
Qed.

Lemma scored_sentences_elem (text : string) (x : nat * string) :
  x ∈ scored_sentences text ->
  x.1 = score_sentence x.2 /\ x.2 ∈ kept_sentences text.
Proof.
  unfold scored_sentences. intros H.
  apply list_elem_of_fmap in H as (s & -> & Hs). by split.
Qed.

(** C8, as the code has it: the score of every sentence is the number of
    terms of the vocabulary that occur in it, case-insensitively, at least
    once; a term that occurs several times counts once, so the score is at
    most 7 and at most the number of occurrences. *)
Theorem sentence_score_counts_terms (text : string) (x : nat * string) :
  x ∈ scored_sentences text ->
  x.1 = present_terms x.2
  /\ (x.1 <= 7)%nat
  /\ (x.1 <= occurrence_score x.2)%nat.
Proof.
  intros H. apply scored_sentences_elem in H as [-> _].
  rewrite score_sentence_present. split; [done |]. split.
  - unfold present_terms.
    etrans; [apply List.filter_length_le | simpl; lia].
  - apply (filter_length_le_total
             (fun w => occurrences (Py.lower w) (Py.lower x.2))).
Qed.

Lemma sentence_score_counts_terms_witness :
  (1%nat, "The key point is the key point here").1
  = present_terms "The key point is the key point here"
  /\ ((1%nat, "The key point is the key point here").1 <= 7)%nat
  /\ ((1%nat, "The key point is the key point here").1
      <= occurrence_score "The key point is the key point here")%nat.
Proof.
  apply (sentence_score_counts_terms
           "The key point is the key point here. Short one."
           (1%nat, "The key point is the key point here")).
  vm_compute. apply list_elem_of_here.
Defined.

(** C8 as stated fails: ["key"] occurs twice in the sentence below, and the
    sentence scores 1. *)
Lemma score_counts_a_repeated_term_once :
  scored_sentences "The key point is the key point here. Short one."
  = [(1%nat, "The key point is the key point here")]
  /\ occurrences "key" (Py.lower "The key point is the key point here")
     = 2%nat
  /\ occurrence_score "The key point is the key point here" = 2%nat
  /\ ~ (forall x,
           x ∈ scored_sentences
                 "The key point is the key point here. Short one." ->
           x.1 = occurrence_score x.2).
Proof.
  split_and!; [by vm_compute | by vm_compute | by vm_compute |].
  intros H.
  specialize (H (1%nat, "The key point is the key point here")).
  assert ((1%nat, "The key point is the key point here")
          ∈ scored_sentences
              "The key point is the key point here. Short one.") as Hin
    by (vm_compute; apply list_elem_of_here).
  apply H in Hin. vm_compute in Hin. discriminate Hin.
Qed.

End Scores.

(** ** Key sentences: selection and order *)

Section Stripping.

Variable p : ascii -> bool.

Lemma lstrip_by_idem (s : string) :
  Py.lstrip_by p (Py.lstrip_by p s) = Py.lstrip_by p s.
Proof.
  induction s as [|c s IH]; simpl; [done |].
  destruct (p c) eqn:Hc; [done |]. simpl. by rewrite Hc.
Qed.

Lemma rstrip_by_idem (s : string) :
  Py.rstrip_by p (Py.rstrip_by p s) = Py.rstrip_by p s.
Proof.
  induction s as [|c s IH]; simpl; [done |].
  destruct (Py.rstrip_by p s) as [|d r] eqn:Hr.
  - destruct (p c) eqn:Hc; simpl; [done | by rewrite Hc].
  - change (Py.rstrip_by p (String c (String d r)))
      with (match Py.rstrip_by p (String d r) with
            | EmptyString => if p c then EmptyString else String c EmptyString
            | r' => String c r'
            end).
    by rewrite IH.
Qed.

Lemma strip_by_comm (s : string) :
  Py.rstrip_by p (Py.lstrip_by p s) = Py.lstrip_by p (Py.rstrip_by p s).
Proof.
  induction s as [|c s IH]; simpl; [done |].
  destruct (p c) eqn:Hc.
  - rewrite IH. destruct (Py.rstrip_by p s) as [|d r]; simpl; [done |].
    by rewrite Hc.
  - change (Py.rstrip_by p (String c s))
      with (match Py.rstrip_by p s with
            | EmptyString => if p c then EmptyString else String c EmptyString
            | r' => String c r'
            end).
    rewrite Hc. destruct (Py.rstrip_by p s); simpl; by rewrite Hc.
Qed.

End Stripping.

Lemma strip_idem (s : string) : Py.strip (Py.strip s) = Py.strip s.
Proof.
  unfold Py.strip.
  by rewrite <- strip_by_comm, lstrip_by_idem, strip_by_comm, rstrip_by_idem.
Qed.

Section Sorting.

Import TextUtils.

Lemma key_gtb_true (a b : nat * nat) :
  key_gtb a b = true <->
  (b.1 < a.1 \/ (a.1 = b.1 /\ b.2 < a.2))%nat.
Proof.
  unfold key_gtb.
  rewrite orb_true_iff, andb_true_iff, !Nat.ltb_lt, Nat.eqb_eq. tauto.
Qed.

Lemma key_gtb_false (a b : nat * nat) :
  key_gtb a b = false <->
  (a.1 < b.1 \/ (a.1 = b.1 /\ a.2 <= b.2))%nat.
Proof.
  rewrite <- not_true_iff_false, key_gtb_true. lia.
Qed.

Lemma insert_desc_perm (x : nat * string) (l : list (nat * string)) :
  insert_desc x l ≡ₚ x :: l.
Proof.
  induction l as [|y l IH]; simpl; [done |].
  destruct (key_gtb (sort_key y) (sort_key x)); [| done].
  rewrite IH. apply Permutation_swap.
Qed.

Lemma sort_desc_perm (l : list (nat * string)) : sort_desc l ≡ₚ l.
Proof.
  induction l as [|x l IH]; simpl; [done |].
  by rewrite insert_desc_perm, IH.
Qed.

Lemma insert_desc_sorted (x : nat * string) (l : list (nat * string)) :
  StronglySorted not_after l -> StronglySorted not_after (insert_desc x l).
Proof.
  induction 1 as [|y l Hl IH Hy]; simpl.
  - repeat constructor.
  - destruct (key_gtb (sort_key y) (sort_key x)) eqn:Hgt.
    + constructor; [done |].
      rewrite insert_desc_perm. constructor; [| done].
      unfold not_after. apply key_gtb_true in Hgt.
      apply key_gtb_false. lia.
    + constructor; [by constructor |].
      constructor; [done |].
      eapply Forall_impl; [exact Hy |].
      intros z Hz. unfold not_after in *.
      apply key_gtb_false in Hgt, Hz. apply key_gtb_false. lia.
Qed.

Lemma sort_desc_sorted (l : list (nat * string)) :
  StronglySorted not_after (sort_desc l).
Proof.
  induction l as [|x l IH]; simpl; [constructor |].
  by apply insert_desc_sorted.
Qed.

(** In a sorted list an earlier item may stand in front of a later one. *)
Lemma sorted_lookup (l : list (nat * string)) (i j : nat) x y :
  StronglySorted not_after l ->
  (i < j)%nat -> l !! i = Some x -> l !! j = Some y -> not_after x y.
Proof.
  intros Hs. revert i j. induction Hs as [|z l Hl IH Hz]; intros i j Hij Hi Hj.
  - done.
  - destruct j as [|j]; [lia |]. simpl in Hj. destruct i as [|i].
    + simpl in Hi. injection Hi as ->.
      rewrite Forall_forall in Hz. apply Hz. by eapply list_elem_of_lookup_2.
    + simpl in Hi. apply (IH i j); [lia | done | done].
Qed.

Lemma slice_to_take {A : Type} (l : list A) (n : Z) :
  exists k : nat,
    Py.slice_to l n = take k l /\ (0 <= n -> Z.of_nat k <= n).
Proof.
  unfold Py.slice_to, Py.slice, Py.bound.
  replace (0 <? 0) with false by done.
  exists (Z.to_nat (if n <? 0 then Z.max (n + Z.of_nat (length l)) 0
                    else Z.min n (Z.of_nat (length l)))).
  split.
  - rewrite (Z.min_l 0) by lia. by rewrite Z.sub_0_r.
  - intros Hn. destruct (Z.ltb_spec n 0); lia.
Qed.

End Sorting.

Section KeySentences.

Import TextUtils.

Lemma prefix_lower (p s : string) :
  String.prefix p s = true ->
  String.prefix (Py.lower p) (Py.lower s) = true.
Proof.
  revert s. induction p as [|a p IH]; intros s; [by destruct s |].
  destruct s as [|b s]; simpl; [done |].
  destruct (ascii_dec a b) as [->|]; [| done]. intros H.
  destruct (ascii_dec (Py.lower_char b) (Py.lower_char b)); [| done].
  by apply IH.
Qed.

Lemma contains_lower (sub s : string) :
  Py.contains sub s = true ->
  Py.contains (Py.lower sub) (Py.lower s) = true.
Proof.
  induction s as [|c s IH]; intros H.
  - destruct sub; [done | by simpl in H].
  - change (Py.lower (String c s))
      with (String (Py.lower_char c) (Py.lower s)).
    rewrite contains_cons in *. apply orb_true_iff in H as [H | H].
    + apply prefix_lower in H.
      change (Py.lower (String c s))
        with (String (Py.lower_char c) (Py.lower s)) in H.
      by rewrite H.
    + rewrite (IH H). by rewrite orb_true_r.
Qed.

Lemma kept_sentences_length (text s : string) :
  s ∈ kept_sentences text -> (20 < String.length (Py.strip s))%nat.
Proof.
  unfold kept_sentences. intros H.
  apply list_elem_of_fmap in H as (s0 & -> & H).
  apply list_elem_of_In, filter_In in H as [_ H].
  apply Nat.ltb_lt in H. by rewrite strip_idem.
Qed.

Lemma score_sentence_conclusion (s : string) :
  Py.contains "conclusion" s = true -> (0 < score_sentence s)%nat.
Proof.
  intros H. apply contains_lower in H. unfold score_sentence.
  assert (In "conclusion"
            (List.filter
               (fun word => Py.contains (Py.lower word) (Py.lower s))
               important_words)) as Hin.
  { apply filter_In. split; [by left | exact H]. }
  destruct (List.filter _ important_words); [done | simpl; lia].
Qed.

Lemma filter_none {A : Type} (f : A -> bool) (l : list A) :
  (forall x, x ∈ l -> f x = false) -> List.filter f l = [].
Proof.
  induction l as [|x l IH]; intros H; simpl; [done |].
  rewrite (H x) by apply list_elem_of_here.
  apply IH. intros y Hy. apply H. by apply list_elem_of_further.
Qed.

Lemma important_words_lower (w : string) :
  w ∈ important_words -> Py.lower w = w.
Proof.
  unfold important_words. intros Hw.
  repeat (apply elem_of_cons in Hw as [-> | Hw]; [reflexivity |]).
  by apply elem_of_nil in Hw.
Qed.

Lemma score_sentence_none (s : string) :
  (forall w, w ∈ important_words -> Py.contains w (Py.lower s) = false) ->
  score_sentence s = O.
Proof.
  intros H. unfold score_sentence. rewrite filter_none; [done |].
  intros w Hw. rewrite (important_words_lower w Hw). by apply H.
Qed.

(** The sentences returned are a prefix of the sorted scored sentences. *)
Lemma extract_key_sentences_take (text : string) (n : Z) :
  exists k : nat,
    extract_key_sentences text n
    = (take k (sort_desc (scored_sentences text))).*2
    /\ (0 <= n -> Z.of_nat k <= n).
Proof.
  unfold extract_key_sentences.
  destruct (slice_to_take (sort_desc (scored_sentences text)) n)
    as (k & -> & Hk).
  by exists k.
Qed.

(** C9: for every text and every count [num_sentences], a number of
    sentences and so not negative, [extract_key_sentences] returns at most
    [num_sentences] sentences; every sentence returned has a trimmed length
    of at least 20 characters, and a sentence that contains ["conclusion"]
    stands before a sentence of the same length that contains no term of the
    vocabulary. The last two parts hold whatever integer is passed. *)
Theorem extract_key_sentences_ranked (text : string) (num_sentences : Z) :
  let res := extract_key_sentences text num_sentences in
  (0 <= num_sentences -> Z.of_nat (length res) <= num_sentences)
  /\ (forall s, s ∈ res -> (20 <= String.length (Py.strip s))%nat)
  /\ (forall (s1 s2 : string) (j : nat),
         s1 ∈ kept_sentences text ->
         Py.contains "conclusion" s1 = true ->
         (forall w, w ∈ important_words ->
                    Py.contains w (Py.lower s2) = false) ->
         String.length s1 = String.length s2 ->
         res !! j = Some s2 ->
         exists i : nat, (i < j)%nat /\ res !! i = Some s1).
Proof.
  intros res. subst res.
  destruct (extract_key_sentences_take text num_sentences) as (k & -> & Hk).
  set (sorted := sort_desc (scored_sentences text)).
  split_and!.
  - intros Hn. specialize (Hk Hn).
    rewrite length_fmap, length_take. lia.
  - intros s Hs. apply list_elem_of_fmap in Hs as (x & -> & Hx).
    apply elem_of_take in Hx as (i & Hx & _).
    apply list_elem_of_lookup_2 in Hx. unfold sorted in Hx.
    rewrite sort_desc_perm in Hx.
    apply scored_sentences_elem in Hx as [_ Hx].
    apply kept_sentences_length in Hx. lia.
  - intros s1 s2 j Hs1 Hc Hnone _ Hj.
    apply list_lookup_fmap_Some in Hj as (x2 & -> & Hj).
    apply lookup_take_Some in Hj as [Hj Hjk].
    assert (x2.1 = O) as Hx2.
    { apply list_elem_of_lookup_2 in Hj. unfold sorted in Hj.
      rewrite sort_desc_perm in Hj.
      apply scored_sentences_elem in Hj as [-> _].
      by apply score_sentence_none. }
    assert ((score_sentence s1, s1) ∈ sorted) as Hin.
    { unfold sorted. rewrite sort_desc_perm. unfold scored_sentences.
      apply list_elem_of_fmap. by exists s1. }
    apply list_elem_of_lookup_1 in Hin as [i Hi].
    pose proof (score_sentence_conclusion s1 Hc) as Hpos.
    assert (i < j)%nat as Hij.
    { destruct (decide (i < j)%nat) as [|Hge]; [done |].
      destruct (decide (i = j)) as [->|Hne].
      - rewrite Hj in Hi. injection Hi as ->. simpl in Hx2. lia.
      - pose proof (sorted_lookup sorted j i _ _
                      (sort_desc_sorted _) ltac:(lia) Hj Hi) as Hord.
        unfold not_after in Hord. apply key_gtb_false in Hord.
        simpl in Hord. lia. }
    exists i. split; [done |].
    rewrite list_lookup_fmap, lookup_take_lt by lia. by rewrite Hi.
Qed.

Lemma extract_key_sentences_ranked_witness :
  Z.of_nat
    (length
       (extract_key_sentences
          "Nothing special occurs today. In conclusion the plan works." 2))
  <= 2
  /\ exists i : nat,
       (i < 1)%nat
       /\ extract_key_sentences
            "Nothing special occurs today. In conclusion the plan works." 2
          !! i
          = Some "In conclusion the plan works".
Proof.
  destruct (extract_key_sentences_ranked
              "Nothing special occurs today. In conclusion the plan works." 2)
    as (Hlen & _ & Hrank).
  split; [apply Hlen; lia |].
  apply (Hrank "In conclusion the plan works" "Nothing special occurs today").
  - vm_compute. apply list_elem_of_further, list_elem_of_here.
  - reflexivity.
  - intros w Hw. unfold important_words in Hw.
    repeat (apply elem_of_cons in Hw as [-> | Hw]; [reflexivity |]).
    by apply elem_of_nil in Hw.
  - reflexivity.
  - reflexivity.
Defined.

End KeySentences.

(** ** Chunking *)

Section Tokens.

Lemma all_chars_app (p : ascii -> bool) (s t : string) :
  all_chars p (s +:+ t) = all_chars p s && all_chars p t.
Proof.
  induction s as [|c s IH]; simpl; [done |].
  by rewrite IH, andb_assoc.
Qed.

Lemma append_not_empty (s : string) (c : ascii) : s +:+ String c "" <> "".
Proof. by destruct s. Qed.

Lemma token_snoc (cur : string) (c : ascii) :
  cur = "" \/ token cur -> Py.isspace c = false ->
  token (cur +:+ String c "").
Proof.
  intros Hcur Hc. split; [apply append_not_empty |].
  rewrite all_chars_app. simpl. rewrite Hc. simpl.
  destruct Hcur as [-> | [_ ->]]; done.
Qed.

Lemma token_eqb (w : string) : token w -> String.eqb w "" = false.
Proof. intros [Hw _]. by apply String.eqb_neq. Qed.

(** The words [str.split()] yields are tokens. *)
Lemma split_go_tokens (s cur : string) :
  cur = "" \/ token cur -> Forall token (Py.split_go cur s).
Proof.
  revert cur. induction s as [|c s IH]; intros cur Hcur; simpl.
  - destruct Hcur as [-> | Hcur]; [constructor |].
    rewrite (token_eqb cur Hcur). constructor; [done | constructor].
  - destruct (Py.isspace c) eqn:Hc.
    + destruct Hcur as [-> | Hcur]; simpl; [apply IH; by left |].
      rewrite (token_eqb cur Hcur). constructor; [done |]. apply IH. by left.
    + apply IH. right. by apply token_snoc.
Qed.

Lemma split_tokens (text : string) : Forall token (Py.split text).
Proof. apply split_go_tokens. by left. Qed.

(** Reading a token extends the current word by it. *)
Lemma split_go_app (w cur rest : string) :
  all_chars (fun c => negb (Py.isspace c)) w = true ->
  Py.split_go cur (w +:+ rest) = Py.split_go (cur +:+ w) rest.
Proof.
  revert cur. induction w as [|c w IH]; intros cur Hw; simpl.
  - by rewrite append_nil_r.
  - simpl in Hw. apply andb_true_iff in Hw as [Hc Hw].
    apply negb_true_iff in Hc. rewrite Hc, (IH _ Hw), append_assoc. done.
Qed.

Lemma join_cons (sep w : string) (ws : list string) :
  Py.join sep (w :: ws)
  = match ws with
    | [] => w
    | _ :: _ => w +:+ sep +:+ Py.join sep ws
    end.
Proof. done. Qed.

Lemma split_go_end (cur : string) : token cur -> Py.split_go cur "" = [cur].
Proof. intros H. simpl. by rewrite (token_eqb cur H). Qed.

Lemma split_go_space (cur rest : string) :
  token cur ->
  Py.split_go cur (String " " rest) = cur :: Py.split_go "" rest.
Proof.
  intros H. change (Py.split_go cur (String " " rest))
    with (if String.eqb cur "" then Py.split_go "" rest
          else cur :: Py.split_go "" rest).
  by rewrite (token_eqb cur H).
Qed.

(** Joining tokens with a space and splitting again gives the tokens. *)
Lemma split_join (ws : list string) :
  Forall token ws -> Py.split (Py.join " " ws) = ws.
Proof.
  unfold Py.split. induction 1 as [|w ws Hw Hws IH]; [done |].
  rewrite join_cons. destruct ws as [|w' ws].
  - rewrite <- (append_nil_r w) at 1. rewrite split_go_app by apply Hw.
    by rewrite split_go_end.
  - rewrite split_go_app by apply Hw.
    change (" " +:+ Py.join " " (w' :: ws))
      with (String " " (Py.join " " (w' :: ws))).
    change ("" +:+ w) with w. rewrite split_go_space by done.
    by rewrite IH.
Qed.

End Tokens.

Section Chunking.

Import TextUtils.

Variables (W : list string) (mx ov : Z).
Hypothesis Hov : 0 <= ov.
Hypothesis Hmx : ov < mx.
Hypothesis Htok : Forall token W.

#[local] Abbreviation n := (Z.of_nat (length W)).
#[local] Abbreviation st := (mx - ov).
#[local] Abbreviation indices j cnt :=
  (map (fun k : nat => 0 + Z.of_nat k * st) (seq j cnt)).
#[local] Abbreviation later_words cs :=
  (concat (map (fun c' => drop (Z.to_nat ov) (Py.split c')) cs)).

Lemma slice_window (i : Z) :
  0 <= i <= n ->
  Py.slice W i (i + mx) = take (Z.to_nat mx) (drop (Z.to_nat i) W).
Proof.
  intros Hi. unfold Py.slice, Py.bound.
  destruct (Z.ltb_spec i 0); [lia |].
  destruct (Z.ltb_spec (i + mx) 0); [lia |].
  rewrite (Z.min_l i) by lia.
  destruct (Z.le_ge_cases (i + mx) n).
  - rewrite Z.min_l by lia. f_equal. lia.
  - rewrite Z.min_r by lia.
    rewrite !take_ge; [done | |]; rewrite length_drop; lia.
Qed.

Lemma chunk_words (i : Z) :
  0 <= i <= n ->
  Py.split (Py.join " " (Py.slice W i (i + mx)))
  = take (Z.to_nat mx) (drop (Z.to_nat i) W).
Proof.
  intros Hi. rewrite slice_window by done.
  apply split_join. by apply Forall_take, Forall_drop.
Qed.

Lemma last_drop_lt {A : Type} (l : list A) (i : nat) :
  (i < length l)%nat -> last (drop i l) = last l.
Proof.
  intros Hi. rewrite !last_lookup, lookup_drop, length_drop.
  f_equal. lia.
Qed.

(** The scan from the [j]-th index on, when the words before position
    [j * st + d] are accounted for and that position exists: the chunks it
    yields, the first one without its first [d] words and the later ones
    without their overlap, are the remaining words; the last chunk ends with
    the last word. *)
Lemma chunk_loop_covers (cnt : nat) :
  forall j d : nat,
    Z.of_nat d <= ov ->
    Z.of_nat j * st + Z.of_nat d < n ->
    n <= Z.of_nat (j + cnt) * st ->
    exists c cs,
      chunk_loop W mx (indices j cnt) = c :: cs
      /\ drop d (Py.split c) ++ later_words cs
         = drop (Z.to_nat (Z.of_nat j * st) + d) W
      /\ exists cl, last (c :: cs) = Some cl
                    /\ last (Py.split cl) = last W.
Proof.
  induction cnt as [|cnt IH]; intros j d Hd Hlt Hcov.
  - rewrite Nat.add_0_r in Hcov. lia.
  - simpl seq. simpl map. simpl chunk_loop.
    set (i := 0 + Z.of_nat j * st) in *.
    assert (0 <= i < n) as Hi by (subst i; nia).
    set (chunk := Py.join " " (Py.slice W i (i + mx))).
    assert (Py.split chunk = take (Z.to_nat mx) (drop (Z.to_nat i) W))
      as Hchunk by (apply chunk_words; lia).
    replace (Z.to_nat (Z.of_nat j * st)) with (Z.to_nat i) by (subst i; lia).
    destruct (Z.geb_spec (i + mx) n) as [Hend | Hmore].
    + exists chunk, []. split; [done |]. split.
      * simpl. rewrite app_nil_r, Hchunk.
        rewrite take_ge by (rewrite length_drop; lia).
        by rewrite drop_drop.
      * exists chunk. split; [done |]. rewrite Hchunk.
        rewrite take_ge by (rewrite length_drop; lia).
        apply last_drop_lt. lia.
    + destruct (IH (S j) (Z.to_nat ov)) as (c & cs & Hloop & Hwords & Hlast).
      { lia. }
      { subst i. lia. }
      { rewrite Nat.add_succ_r in Hcov. exact Hcov. }
      exists chunk, (c :: cs). split; [by rewrite Hloop |]. split.
      * simpl. rewrite Hwords, Hchunk.
        replace (Z.to_nat (Z.of_nat (S j) * st) + Z.to_nat ov)%nat
          with (Z.to_nat i + Z.to_nat mx)%nat by (subst i; lia).
        rewrite <- (drop_drop W (Z.to_nat mx) (Z.to_nat i)).
        rewrite drop_take_drop by lia. by rewrite drop_drop.
      * destruct Hlast as (cl & Hcl & Hw). exists cl.
        split; [by rewrite last_cons_cons | done].
Qed.

End Chunking.

(** C2: for [max_chunk_size > overlap >= 0], [chunk_text] returns a list of
    chunks; the words of the first chunk followed by the words of every later
    chunk without its first [overlap] words are exactly the words of the
    text, and the last word of the text, when there is one, is in the last
    chunk, as its last word. *)
Theorem chunk_text_reconstructs (text : string) (max_chunk_size overlap : Z) :
  0 <= overlap < max_chunk_size ->
  exists chunks,
    TextUtils.chunk_text text max_chunk_size overlap = Ok chunks
    /\ reconstruct (Z.to_nat overlap) chunks = Py.split text
    /\ forall w, last (Py.split text) = Some w ->
                 exists c, last chunks = Some c /\ last (Py.split c) = Some w
                           /\ w ∈ Py.split c.
Proof.
  intros [Hov Hmx]. unfold TextUtils.chunk_text, Py.range.
  set (W := Py.split text). set (st := max_chunk_size - overlap).
  destruct (Z.eqb_spec st 0) as [|_]; [subst st; lia |].
  destruct (Z.ltb_spec 0 st) as [Hst|]; [| subst st; lia].
  eexists. split; [reflexivity |].
  destruct W as [|w0 W'] eqn:HW.
  - assert (Z.to_nat ((Z.of_nat (length (@nil string)) - 0 + st - 1) / st)
            = O) as ->.
    { simpl. rewrite Z.div_small by lia. done. }
    by split.
  - rewrite <- HW.
    set (q := (Z.of_nat (length W) - 0 + st - 1) / st).
    assert (Z.of_nat (length W) <= q * st) as Hq.
    { pose proof (Z.mul_succ_div_gt
                    (Z.of_nat (length W) - 0 + st - 1) st Hst).
      fold q in H. lia. }
    assert (0 < Z.of_nat (length W)) as Hpos by (rewrite HW; simpl; lia).
    destruct (chunk_loop_covers W max_chunk_size overlap Hov Hmx
                (split_tokens text) (Z.to_nat q) O O)
      as (c & cs & Hloop & Hwords & cl & Hcl & Hw).
    { lia. }
    { lia. }
    { simpl. lia. }
    fold st in Hloop. rewrite Hloop. split.
    + change (Z.to_nat (Z.of_nat 0 * st) + 0)%nat with O in Hwords.
      rewrite !drop_0 in Hwords. unfold reconstruct. by rewrite Hwords.
    + intros w Hlast. exists cl. split; [done |].
      rewrite Hw. split; [done |].
      apply last_Some_elem_of. by rewrite Hw.
Qed.

Lemma chunk_text_reconstructs_witness :
  exists chunks,
    TextUtils.chunk_text "a b c d e f g" 3 1 = Ok chunks
    /\ reconstruct (Z.to_nat 1) chunks = Py.split "a b c d e f g"
    /\ forall w, last (Py.split "a b c d e f g") = Some w ->
                 exists c, last chunks = Some c /\ last (Py.split c) = Some w
                           /\ w ∈ Py.split c.
Proof. apply (chunk_text_reconstructs "a b c d e f g" 3 1). lia. Defined.

(** The chunks of the sample above. *)
Example chunk_text_sample :
  TextUtils.chunk_text "a b c d e f g" 3 1 = Ok ["a b c"; "c d e"; "e f g"].
Proof. by vm_compute. Qed.

(** ** Cleaning *)

Section Cleaning.

Import TextUtils.

(** Only allowed characters are left. *)
Lemma clean_text_allowed (text : string) :
  all_chars allowed (clean_text text) = true.
Proof.
  unfold clean_text. induction (sub_ws (Py.strip text)) as [|c s IH];
    simpl; [done |].
  destruct (allowed c) eqn:Hc; simpl; [by rewrite Hc | done].
Qed.

(** C1 fails on the code: a character that is deleted between two spaces
    leaves both spaces, and one deleted in front of a space leaves that space
    at the start. *)
Theorem clean_text_keeps_joined_spaces :
  clean_text "a @ b" = "a  b"
  /\ consecutive_ws (clean_text "a @ b") = true
  /\ clean_text "@ a" = " a"
  /\ Py.strip (clean_text "@ a") <> clean_text "@ a".
Proof. by vm_compute. Qed.

End Cleaning.

(** ** Chunking: the shape of the chunks *)

Section ChunkShape.

Import TextUtils.

Variables (W : list string) (mx ov : Z).
Hypothesis Hov : 0 <= ov.
Hypothesis Hmx : ov < mx.

#[local] Abbreviation n := (Z.of_nat (length W)).
#[local] Abbreviation st := (mx - ov).
#[local] Abbreviation indices j cnt :=
  (map (fun k : nat => 0 + Z.of_nat k * st) (seq j cnt)).
#[local] Abbreviation window k :=
  (take (Z.to_nat mx) (drop (Z.to_nat (Z.of_nat k * st)) W)).

(** The [k]-th chunk of the scan that starts at the [j]-th index is the
    window at the index [j + k], which lies in the word list; a chunk that is
    followed by another one does not reach the end of the word list. *)
Lemma chunk_loop_shape (cnt : nat) :
  forall (j k : nat) (c : string),
    Z.of_nat (j + cnt) * st < n + st ->
    chunk_loop W mx (indices j cnt) !! k = Some c ->
    c = Py.join " " (window (j + k))
    /\ Z.of_nat (j + k) * st < n
    /\ (is_Some (chunk_loop W mx (indices j cnt) !! S k) ->
        Z.of_nat (j + k) * st + mx < n).
Proof.
  induction cnt as [|cnt IH]; intros j k c Hrange Hk; [done |].
  simpl seq in *. simpl map in *. simpl chunk_loop in *.
  set (i := 0 + Z.of_nat j * st) in *.
  assert (0 <= i < n) as Hi by (subst i; nia).
  assert (Py.join " " (Py.slice W i (i + mx)) = Py.join " " (window j))
    as Hchunk.
  { rewrite (slice_window W mx ov Hov Hmx) by lia.
    by replace (Z.to_nat i) with (Z.to_nat (Z.of_nat j * st))
      by (subst i; lia). }
  destruct (Z.geb_spec (i + mx) n) as [Hend | Hmore].
  - destruct k as [|k]; [| done]. simpl in Hk. injection Hk as <-.
    rewrite Nat.add_0_r. split; [done |]. split; [subst i; lia |].
    intros [? ?]. done.
  - destruct k as [|k].
    + simpl in Hk. injection Hk as <-.
      rewrite Nat.add_0_r. split; [done |]. split; [subst i; lia |].
      intros _. subst i. lia.
    + simpl in Hk. rewrite <- Nat.add_succ_comm.
      apply (IH (S j) k c); [| done].
      rewrite <- Nat.add_succ_comm in Hrange. exact Hrange.
Qed.

End ChunkShape.

(** What [chunk_text] computes for a positive step. *)
Lemma chunk_text_loop (text : string) (mx ov : Z) :
  0 <= ov < mx ->
  exists cnt : nat,
    TextUtils.chunk_text text mx ov
    = Ok (TextUtils.chunk_loop (Py.split text) mx
            (map (fun k : nat => 0 + Z.of_nat k * (mx - ov)) (seq 0 cnt)))
    /\ Z.of_nat cnt * (mx - ov) < Z.of_nat (length (Py.split text)) + (mx - ov)
    /\ Z.of_nat (length (Py.split text)) <= Z.of_nat cnt * (mx - ov).
Proof.
  intros [Hov Hmx]. unfold TextUtils.chunk_text, Py.range.
  set (W := Py.split text). set (st := mx - ov).
  destruct (Z.eqb_spec st 0) as [|_]; [subst st; lia |].
  destruct (Z.ltb_spec 0 st) as [Hst|]; [| subst st; lia].
  set (q := (Z.of_nat (length W) - 0 + st - 1) / st).
  exists (Z.to_nat q). split; [done |].
  assert (0 <= q) as Hq0 by (apply Z.div_pos; lia).
  pose proof (Z.mul_succ_div_gt (Z.of_nat (length W) - 0 + st - 1) st Hst)
    as Hgt.
  pose proof (Z.mul_div_le (Z.of_nat (length W) - 0 + st - 1) st Hst) as Hle.
  fold q in Hgt, Hle. lia.
Qed.

(** X1: the chunks of a text, for [max_chunk_size > overlap >= 0], have
    between 1 and [max_chunk_size] words each, and each is its own words
    joined by single spaces. *)
Theorem chunk_text_chunk_sizes (text : string) (max_chunk_size overlap : Z)
    (chunks : list string) (c : string) :
  0 <= overlap < max_chunk_size ->
  TextUtils.chunk_text text max_chunk_size overlap = Ok chunks ->
  c ∈ chunks ->
  (1 <= length (Py.split c))%nat
  /\ Z.of_nat (length (Py.split c)) <= max_chunk_size
  /\ Py.join " " (Py.split c) = c.
Proof.
  intros Hpre Hchunks Hc.
  destruct (chunk_text_loop text max_chunk_size overlap Hpre)
    as (cnt & Heq & Hrange & _).
  rewrite Heq in Hchunks. injection Hchunks as <-.
  apply list_elem_of_lookup_1 in Hc as [k Hk].
  destruct Hpre as [Hov Hmx].
  destruct (chunk_loop_shape _ _ _ Hov Hmx cnt O k c Hrange Hk)
    as (-> & Hin & _).
  assert (Forall token
            (take (Z.to_nat max_chunk_size)
               (drop (Z.to_nat (Z.of_nat (0 + k) * (max_chunk_size - overlap)))
                     (Py.split text)))) as Htok
    by apply Forall_take, Forall_drop, split_tokens.
  rewrite (split_join _ Htok), length_take, length_drop.
  assert (0 <= Z.of_nat (0 + k) * (max_chunk_size - overlap)) by nia.
  set (i := Z.of_nat (0 + k) * (max_chunk_size - overlap)) in *.
  split_and!; [lia | lia | done].
Qed.

Lemma chunk_text_chunk_sizes_witness :
  (1 <= length (Py.split "c d e"))%nat
  /\ Z.of_nat (length (Py.split "c d e")) <= 3
  /\ Py.join " " (Py.split "c d e") = "c d e".
Proof.
  apply (chunk_text_chunk_sizes "a b  c d e f g" 3 1
           ["a b c"; "c d e"; "e f g"] "c d e");
    [lia | by vm_compute |].
  apply list_elem_of_further, list_elem_of_here.
Defined.

(** X2: neighbouring chunks overlap by [overlap] words: a chunk that is
    followed by another one is full, and its last [overlap] words are the
    first [overlap] words of the next one. *)
Theorem chunk_text_neighbours_overlap (text : string)
    (max_chunk_size overlap : Z) (chunks : list string) (k : nat)
    (c1 c2 : string) :
  0 <= overlap < max_chunk_size ->
  TextUtils.chunk_text text max_chunk_size overlap = Ok chunks ->
  chunks !! k = Some c1 ->
  chunks !! S k = Some c2 ->
  Z.of_nat (length (Py.split c1)) = max_chunk_size
  /\ take (Z.to_nat overlap) (Py.split c2)
     = drop (Z.to_nat (max_chunk_size - overlap)) (Py.split c1).
Proof.
  intros Hpre Hchunks Hk1 Hk2.
  destruct (chunk_text_loop text max_chunk_size overlap Hpre)
    as (cnt & Heq & Hrange & _).
  rewrite Heq in Hchunks. injection Hchunks as <-.
  destruct Hpre as [Hov Hmx].
  destruct (chunk_loop_shape _ _ _ Hov Hmx cnt O k c1 Hrange Hk1)
    as (-> & Hin1 & Hnext).
  destruct (chunk_loop_shape _ _ _ Hov Hmx cnt O (S k) c2 Hrange Hk2)
    as (-> & Hin2 & _).
  specialize (Hnext (ex_intro _ _ Hk2)).
  rewrite !split_join by apply Forall_take, Forall_drop, split_tokens.
  set (W := Py.split text) in *. simpl in *.
  set (stz := max_chunk_size - overlap) in *.
  split; [rewrite length_take, length_drop; lia |].
  replace (Z.to_nat (Z.of_nat (S k) * stz))
    with (Z.to_nat (Z.of_nat k * stz) + Z.to_nat stz)%nat by lia.
  rewrite take_take, <- drop_drop.
  rewrite take_drop_commute. f_equal. f_equal. lia.
Qed.

Lemma chunk_text_neighbours_overlap_witness :
  Z.of_nat (length (Py.split "a b c")) = 3
  /\ take (Z.to_nat 1) (Py.split "c d e")
     = drop (Z.to_nat (3 - 1)) (Py.split "a b c").
Proof.
  apply (chunk_text_neighbours_overlap "a b  c d e f g" 3 1
           ["a b c"; "c d e"; "e f g"] 0 "a b c" "c d e");
    [lia | by vm_compute | done | done].
Defined.

(** X3: for [max_chunk_size > overlap >= 0] there is no chunk exactly when
    the text has no word. *)
Theorem chunk_text_empty_iff (text : string) (max_chunk_size overlap : Z) :
  0 <= overlap < max_chunk_size ->
  TextUtils.chunk_text text max_chunk_size overlap = Ok []
  <-> Py.split text = [].
Proof.
  intros Hpre.
  destruct (chunk_text_loop text max_chunk_size overlap Hpre)
    as (cnt & Heq & Hrange & Hcov).
  rewrite Heq. destruct Hpre as [Hov Hmx]. split.
  - intros Hnil. injection Hnil as Hnil.
    destruct (Py.split text) as [|w ws] eqn:HW; [done |].
    destruct (chunk_loop_covers (w :: ws) max_chunk_size overlap Hov Hmx
                ltac:(rewrite <- HW; apply split_tokens) cnt O O)
      as (c & cs & Hloop & _); [lia | simpl; lia | exact Hcov |].
    rewrite Hloop in Hnil. done.
  - intros HW. rewrite HW in *. simpl in Hrange.
    destruct cnt as [|cnt]; [done | nia].
Qed.

Lemma chunk_text_empty_iff_witness :
  TextUtils.chunk_text "   " 1500 150 = Ok [] <-> Py.split "   " = [].
Proof. apply (chunk_text_empty_iff "   " 1500 150). lia. Defined.

(** X4: an overlap that is not smaller than the chunk size yields no usable
    chunks, whatever the text: an equal one raises the [ValueError] of a
    zero step, a greater one gives no chunk at all. *)
Theorem chunk_text_degenerate :
  (forall (text : string) (size : Z),
      exists msg, TextUtils.chunk_text text size size = Raise (ValueError msg))
  /\ (forall (text : string) (max_chunk_size overlap : Z),
         max_chunk_size < overlap ->
         TextUtils.chunk_text text max_chunk_size overlap = Ok []).
Proof.
  unfold TextUtils.chunk_text, Py.range. split.
  - intros text size. rewrite Z.sub_diag. simpl. eauto.
  - intros text max_chunk_size overlap Hlt.
    destruct (Z.eqb_spec (max_chunk_size - overlap) 0); [lia |].
    destruct (Z.ltb_spec 0 (max_chunk_size - overlap)); [lia |].
    set (W := Py.split text).
    set (q := (0 - Z.of_nat (length W) - (max_chunk_size - overlap) - 1)
              / - (max_chunk_size - overlap)).
    assert (q < 1) as Hq by (apply Z.div_lt_upper_bound; lia).
    by replace (Z.to_nat q) with O by lia.
Qed.

Lemma chunk_text_degenerate_witness :
  (exists msg, TextUtils.chunk_text "a b c" 200 200 = Raise (ValueError msg))
  /\ TextUtils.chunk_text "a b c" 150 200 = Ok [].
Proof.
  split.
  - apply (proj1 chunk_text_degenerate "a b c" 200).
  - apply (proj2 chunk_text_degenerate "a b c" 150 200). lia.
Defined.

(** ** Cleaning: what holds of the result *)

Section CleanResult.

Import TextUtils.

Lemma consecutive_ws_cons (c : ascii) (r : string) :
  consecutive_ws (String c r)
  = (Py.isspace c && starts_with_ws r) || consecutive_ws r.
Proof. destruct r; simpl; [by rewrite andb_false_r | done]. Qed.

Lemma ends_with_ws_cons (c d : ascii) (r : string) :
  ends_with_ws (String c (String d r)) = ends_with_ws (String d r).
Proof. done. Qed.

(** The whitespace runs are single spaces after the substitution. *)
Lemma sub_ws_go_single (s : string) :
  forall in_run : bool,
    consecutive_ws (sub_ws_go in_run s) = false
    /\ (in_run = true -> starts_with_ws (sub_ws_go in_run s) = false).
Proof.
  induction s as [|c s IH]; intros in_run; simpl; [done |].
  destruct (Py.isspace c) eqn:Hc.
  - destruct (IH true) as [Hcons Hstart]. destruct in_run.
    + split; [done | auto].
    + rewrite consecutive_ws_cons, Hcons, Hstart by done.
      split; [by rewrite andb_false_r | done].
  - destruct (IH false) as [Hcons _].
    rewrite consecutive_ws_cons, Hc, Hcons. simpl. by rewrite Hc.
Qed.

Lemma lstrip_starts (s : string) :
  starts_with_ws (Py.lstrip_by Py.isspace s) = false.
Proof.
  induction s as [|c s IH]; simpl; [done |].
  destruct (Py.isspace c) eqn:Hc; [done | by simpl].
Qed.

Lemma lstrip_fixed (s : string) :
  starts_with_ws s = false -> Py.lstrip_by Py.isspace s = s.
Proof. destruct s as [|c s]; simpl; [done |]. by intros ->. Qed.

Lemma rstrip_ends (s : string) :
  ends_with_ws (Py.rstrip_by Py.isspace s) = false.
Proof.
  induction s as [|c s IH]; simpl; [done |].
  destruct (Py.rstrip_by Py.isspace s) as [|d r] eqn:Hr.
  - destruct (Py.isspace c) eqn:Hc; [done | by simpl].
  - by rewrite ends_with_ws_cons.
Qed.

Lemma rstrip_fixed (s : string) :
  ends_with_ws s = false -> Py.rstrip_by Py.isspace s = s.
Proof.
  induction s as [|c s IH]; [done |].
  destruct s as [|d r].
  - simpl. by intros ->.
  - rewrite ends_with_ws_cons. intros H.
    change (Py.rstrip_by Py.isspace (String c (String d r)))
      with (match Py.rstrip_by Py.isspace (String d r) with
            | EmptyString =>
                if Py.isspace c then EmptyString else String c EmptyString
            | r' => String c r'
            end).
    by rewrite (IH H).
Qed.

Lemma strip_ends (s : string) :
  starts_with_ws (Py.strip s) = false /\ ends_with_ws (Py.strip s) = false.
Proof.
  split; [apply lstrip_starts |].
  unfold Py.strip. rewrite <- strip_by_comm. apply rstrip_ends.
Qed.

Lemma strip_fixed (s : string) :
  starts_with_ws s = false -> ends_with_ws s = false -> Py.strip s = s.
Proof.
  intros Hs He. unfold Py.strip. by rewrite (rstrip_fixed s He), lstrip_fixed.
Qed.

(** The substitution keeps a string without whitespace at its ends so. *)
Lemma sub_ws_go_ends (s : string) :
  forall in_run : bool,
    s <> "" -> ends_with_ws s = false ->
    sub_ws_go in_run s <> "" /\ ends_with_ws (sub_ws_go in_run s) = false.
Proof.
  induction s as [|c s IH]; intros in_run Hne He; [done |].
  destruct s as [|d r].
  - simpl in He. simpl. by rewrite He.
  - rewrite ends_with_ws_cons in He.
    destruct (IH true ltac:(done) He) as [Hne1 He1].
    destruct (IH false ltac:(done) He) as [Hne2 He2].
    change (sub_ws_go in_run (String c (String d r)))
      with (if Py.isspace c
            then (if in_run then sub_ws_go true (String d r)
                  else String " " (sub_ws_go true (String d r)))
            else String c (sub_ws_go false (String d r))).
    destruct (Py.isspace c), in_run; try done.
    + split; [done |].
      destruct (sub_ws_go true (String d r)); [done |].
      by rewrite ends_with_ws_cons.
    + split; [done |].
      destruct (sub_ws_go false (String d r)); [done |].
      by rewrite ends_with_ws_cons.
    + split; [done |].
      destruct (sub_ws_go false (String d r)); [done |].
      by rewrite ends_with_ws_cons.
Qed.

Lemma sub_ws_trimmed (s : string) :
  starts_with_ws s = false -> ends_with_ws s = false ->
  Py.strip (sub_ws s) = sub_ws s.
Proof.
  intros Hs He. destruct s as [|c s]; [done |].
  apply strip_fixed.
  - simpl in Hs. unfold sub_ws. simpl. by rewrite Hs.
  - by apply sub_ws_go_ends.
Qed.

Lemma sub_special_allowed (s : string) :
  all_chars allowed s = true -> sub_special s = s.
Proof.
  induction s as [|c s IH]; simpl; [done |].
  intros H. apply andb_true_iff in H as [Hc Hs]. by rewrite Hc, IH.
Qed.

Lemma all_chars_lstrip (p q : ascii -> bool) (s : string) :
  all_chars p s = true -> all_chars p (Py.lstrip_by q s) = true.
Proof.
  induction s as [|c s IH]; simpl; [done |].
  intros H. destruct (q c); [| done].
  apply andb_true_iff in H as [_ Hs]. by apply IH.
Qed.

Lemma all_chars_rstrip (p q : ascii -> bool) (s : string) :
  all_chars p s = true -> all_chars p (Py.rstrip_by q s) = true.
Proof.
  induction s as [|c s IH]; simpl; [done |].
  intros H. apply andb_true_iff in H as [Hc Hs]. specialize (IH Hs).
  destruct (Py.rstrip_by q s) as [|d r].
  - destruct (q c); simpl; [done | by rewrite Hc].
  - change (all_chars p (String c (String d r)))
      with (p c && all_chars p (String d r)). by rewrite Hc, IH.
Qed.

Lemma all_chars_strip (p : ascii -> bool) (s : string) :
  all_chars p s = true -> all_chars p (Py.strip s) = true.
Proof. intros H. by apply all_chars_lstrip, all_chars_rstrip. Qed.

Lemma sub_ws_go_allowed (s : string) (in_run : bool) :
  all_chars allowed s = true ->
  all_chars allowed (sub_ws_go in_run s) = true.
Proof.
  revert in_run. induction s as [|c s IH]; intros in_run; simpl; [done |].
  intros H. apply andb_true_iff in H as [Hc Hs].
  destruct (Py.isspace c), in_run; simpl; rewrite ?Hc; simpl; auto.
Qed.

(** X5: on a text without special characters [clean_text] does what its
    comments say: the result is the trimmed text with every whitespace run
    replaced by one space, so it has no two whitespace characters in a row
    and no whitespace at its ends. *)
Theorem clean_text_normalises_plain_text (text : string) :
  all_chars allowed text = true ->
  clean_text text = sub_ws (Py.strip text)
  /\ consecutive_ws (clean_text text) = false
  /\ Py.strip (clean_text text) = clean_text text.
Proof.
  intros Hall. unfold clean_text.
  rewrite sub_special_allowed
    by (apply sub_ws_go_allowed; by apply all_chars_strip).
  split; [done |]. split.
  - apply sub_ws_go_single.
  - apply sub_ws_trimmed; apply strip_ends.
Qed.

Lemma clean_text_normalises_plain_text_witness :
  clean_text "  Hello,   world (again)!  " = sub_ws (Py.strip "  Hello,   world (again)!  ")
  /\ consecutive_ws (clean_text "  Hello,   world (again)!  ") = false
  /\ Py.strip (clean_text "  Hello,   world (again)!  ")
     = clean_text "  Hello,   world (again)!  ".
Proof.
  apply (clean_text_normalises_plain_text "  Hello,   world (again)!  ").
  reflexivity.
Defined.

Lemma lstrip_length (p : ascii -> bool) (s : string) :
  (String.length (Py.lstrip_by p s) <= String.length s)%nat.
Proof.
  induction s as [|c s IH]; simpl; [done |].
  destruct (p c); simpl; lia.
Qed.

Lemma rstrip_length (p : ascii -> bool) (s : string) :
  (String.length (Py.rstrip_by p s) <= String.length s)%nat.
Proof.
  induction s as [|c s IH]; simpl; [done |].
  destruct (Py.rstrip_by p s) as [|d r].
  - destruct (p c); simpl; lia.
  - simpl in *. lia.
Qed.

Lemma strip_length (s : string) :
  (String.length (Py.strip s) <= String.length s)%nat.
Proof.
  unfold Py.strip. etrans; [apply lstrip_length | apply rstrip_length].
Qed.

Lemma sub_ws_go_length (s : string) (in_run : bool) :
  (String.length (sub_ws_go in_run s) <= String.length s)%nat.
Proof.
  revert in_run. induction s as [|c s IH]; intros in_run; simpl; [done |].
  pose proof (IH true). pose proof (IH false).
  destruct (Py.isspace c), in_run; simpl; lia.
Qed.

Lemma sub_special_length (s : string) :
  (String.length (sub_special s) <= String.length s)%nat.
Proof.
  induction s as [|c s IH]; simpl; [done |].
  destruct (allowed c); simpl; lia.
Qed.

(** X6: whatever the text, the cleaned text holds allowed characters only
    (word characters, whitespace and [. , ! ? ; : - ( )]) and is not longer
    than the text. *)
Theorem clean_text_allowed_and_not_longer (text : string) :
  all_chars allowed (clean_text text) = true
  /\ (String.length (clean_text text) <= String.length text)%nat.
Proof.
  split; [apply clean_text_allowed |].
  unfold clean_text, sub_ws.
  etrans; [apply sub_special_length |].
  etrans; [apply sub_ws_go_length | apply strip_length].
Qed.

End CleanResult.

(** ** Key sentences: what is returned *)

Section KeySentencesResult.

Import TextUtils.

Lemma slice_to_all {A : Type} (l : list A) (n : Z) :
  Z.of_nat (length l) <= n -> Py.slice_to l n = l.
Proof.
  intros Hn. unfold Py.slice_to, Py.slice, Py.bound.
  destruct (Z.ltb_spec n 0); [lia |].
  replace (0 <? 0) with false by done.
  rewrite (Z.min_l 0), (Z.min_r n) by lia.
  rewrite Z.sub_0_r, Nat2Z.id. simpl. apply firstn_all.
Qed.

Lemma scored_sentences_snd (text : string) :
  (scored_sentences text).*2 = kept_sentences text.
Proof.
  unfold scored_sentences. rewrite <- list_fmap_compose.
  etrans; [| apply list_fmap_id]. by apply list_fmap_ext.
Qed.

(** X7: the sentences returned are kept sentences, each at most as often as
    it was kept; when the count is at least the number of kept sentences,
    they are all the kept sentences, rearranged. *)
Theorem extract_key_sentences_selects (text : string) (num_sentences : Z) :
  extract_key_sentences text num_sentences ⊆+ kept_sentences text
  /\ (Z.of_nat (length (kept_sentences text)) <= num_sentences ->
      extract_key_sentences text num_sentences ≡ₚ kept_sentences text).
Proof.
  split.
  - destruct (extract_key_sentences_take text num_sentences) as (k & -> & _).
    rewrite <- scored_sentences_snd. apply fmap_submseteq.
    etrans; [apply submseteq_take |].
    apply Permutation_submseteq, sort_desc_perm.
  - intros Hn. unfold extract_key_sentences. rewrite slice_to_all.
    + rewrite <- scored_sentences_snd.
      apply fmap_Permutation, sort_desc_perm.
    + rewrite (Permutation_length (sort_desc_perm _)).
      unfold scored_sentences. rewrite length_fmap. done.
Qed.

Lemma extract_key_sentences_selects_witness :
  extract_key_sentences
    "Nothing special occurs today. In conclusion the plan works." 2
  ≡ₚ kept_sentences
       "Nothing special occurs today. In conclusion the plan works.".
Proof.
  apply (proj2 (extract_key_sentences_selects
                  "Nothing special occurs today. In conclusion the plan works."
                  2)).
  vm_compute. discriminate.
Defined.

(** X8: the sentences are returned in order of rank: an earlier one has a
    greater score than a later one, or the same score and at least its
    length. *)
Theorem extract_key_sentences_sorted (text : string) (num_sentences : Z)
    (i j : nat) (s1 s2 : string) :
  (i < j)%nat ->
  extract_key_sentences text num_sentences !! i = Some s1 ->
  extract_key_sentences text num_sentences !! j = Some s2 ->
  (score_sentence s2 < score_sentence s1)%nat
  \/ (score_sentence s1 = score_sentence s2
      /\ (String.length s2 <= String.length s1)%nat).
Proof.
  intros Hij H1 H2.
  destruct (extract_key_sentences_take text num_sentences) as (k & Heq & _).
  rewrite Heq in H1, H2.
  apply list_lookup_fmap_Some in H1 as (x1 & -> & H1).
  apply list_lookup_fmap_Some in H2 as (x2 & -> & H2).
  apply lookup_take_Some in H1 as [H1 _].
  apply lookup_take_Some in H2 as [H2 _].
  pose proof (sorted_lookup _ i j x1 x2 (sort_desc_sorted _) Hij H1 H2)
    as Hord.
  assert (forall x, x ∈ sort_desc (scored_sentences text) ->
                    x.1 = score_sentence x.2) as Hscore.
  { intros x Hx. rewrite sort_desc_perm in Hx.
    by apply scored_sentences_elem in Hx as [? _]. }
  rewrite <- (Hscore x1), <- (Hscore x2)
    by (by eapply list_elem_of_lookup_2).
  unfold not_after in Hord. apply key_gtb_false in Hord.
  simpl in Hord. lia.
Qed.

Lemma extract_key_sentences_sorted_witness :
  (score_sentence "Nothing special occurs today"
   < score_sentence "In conclusion the plan works")%nat
  \/ (score_sentence "In conclusion the plan works"
      = score_sentence "Nothing special occurs today"
      /\ (String.length "Nothing special occurs today"
          <= String.length "In conclusion the plan works")%nat).
Proof.
  apply (extract_key_sentences_sorted
           "Nothing special occurs today. In conclusion the plan works." 2
           0 1);
    [lia | reflexivity | reflexivity].
Defined.

Lemma append_all_chars_snoc (p : ascii -> bool) (s : string) (c : ascii) :
  all_chars p s = true -> p c = true ->
  all_chars p (s +:+ String c "") = true.
Proof. intros Hs Hc. rewrite all_chars_app, Hs. simpl. by rewrite Hc. Qed.

(** The pieces between the runs of terminal punctuation hold none. *)
Lemma re_split_go_pieces (s cur : string) (in_run : bool) :
  all_chars (fun c => negb (is_terminal c)) cur = true ->
  Forall (fun piece => all_chars (fun c => negb (is_terminal c)) piece = true)
         (re_split_go cur in_run s).
Proof.
  revert cur in_run. induction s as [|c s IH]; intros cur in_run Hcur; simpl.
  - by repeat constructor.
  - destruct (is_terminal c) eqn:Hc.
    + destruct in_run; [by apply IH |]. constructor; [done | by apply IH].
    + apply IH. apply append_all_chars_snoc; [done | by rewrite Hc].
Qed.

(** X9: every sentence returned is trimmed and holds none of the characters
    [.], [!] and [?]. *)
Theorem extract_key_sentences_clean (text : string) (num_sentences : Z)
    (s : string) :
  s ∈ extract_key_sentences text num_sentences ->
  Py.strip s = s
  /\ all_chars (fun c => negb (is_terminal c)) s = true.
Proof.
  intros Hs.
  assert (s ∈ kept_sentences text) as Hk.
  { eapply elem_of_submseteq; [exact Hs |].
    destruct (extract_key_sentences_take text num_sentences) as (k & -> & _).
    rewrite <- scored_sentences_snd. apply fmap_submseteq.
    etrans; [apply submseteq_take |].
    apply Permutation_submseteq, sort_desc_perm. }
  unfold kept_sentences in Hk.
  apply list_elem_of_fmap in Hk as (piece & -> & Hp).
  split; [apply strip_idem |].
  apply all_chars_strip.
  apply list_elem_of_In, filter_In in Hp as [Hp _].
  pose proof (re_split_go_pieces text "" false eq_refl) as Hall.
  rewrite Forall_forall in Hall. apply Hall. by apply list_elem_of_In.
Qed.

Lemma extract_key_sentences_clean_witness :
  Py.strip "In conclusion the plan works" = "In conclusion the plan works"
  /\ all_chars (fun c => negb (is_terminal c)) "In conclusion the plan works"
     = true.
Proof.
  apply (extract_key_sentences_clean
           "Nothing special occurs today. In conclusion the plan works." 2).
  vm_compute. apply list_elem_of_here.
Defined.

End KeySentencesResult.

(** ** The assistant: parsing, history, context and summary *)

Section Assistant.

Import AIAssistant.

(** The loop of [_parse_answer] never raises; it keeps the confidence, and
    without a line that starts with ["Answer:"] it keeps the answer. *)
Lemma parse_answer_loop_ok (lines : list string) (res : answer_record) :
  exists res',
    parse_answer_loop lines res = Ok res'
    /\ confidence res' = confidence res
    /\ ((forall line, line ∈ lines -> Py.startswith line "Answer:" = false) ->
        answer res' = answer res).
Proof.
  revert res. induction lines as [|line lines IH]; intros res; simpl.
  - by exists res.
  - destruct (Py.startswith line "Answer:") eqn:Ha.
    + destruct (label_value "Answer" line) as [v ->]; [by repeat split | done |].
      simpl. destruct (IH {| answer := Py.strip v; reference := reference res;
                             confidence := confidence res |})
        as (res' & -> & Hc & _).
      exists res'. split; [done |]. split; [done |].
      intros Hno. specialize (Hno line (list_elem_of_here _ _)). congruence.
    + destruct (Py.startswith line "Reference:") eqn:Hr.
      * destruct (label_value "Reference" line) as [v ->];
          [by repeat split | done |].
        simpl. destruct (IH {| answer := answer res; reference := Py.strip v;
                               confidence := confidence res |})
          as (res' & -> & Hc & Hans).
        exists res'. split; [done |]. split; [done |].
        intros Hno. apply Hans. intros l Hl. apply Hno.
        by apply list_elem_of_further.
      * destruct (IH res) as (res' & -> & Hc & Hans).
        exists res'. split; [done |]. split; [done |].
        intros Hno. apply Hans. intros l Hl. apply Hno.
        by apply list_elem_of_further.
Qed.

(** X10: [_parse_answer] never raises, and the answer it returns is empty
    only for a blank reply. *)
Theorem parse_answer_never_empty (answer_text : string) :
  exists res,
    _parse_answer answer_text = Ok res
    /\ (answer res = "" -> Py.strip answer_text = "").
Proof.
  unfold _parse_answer.
  destruct (parse_answer_loop_ok (Py.splitlines answer_text)
              {| answer := ""; reference := ""; confidence := (8 # 10)%Q |})
    as (res & -> & _ & _).
  simpl. destruct (Py.truthy (answer res)) eqn:Ht; simpl.
  - exists res. split; [done |]. intros Hempty. rewrite Hempty in Ht. done.
  - eexists. split; [done |]. simpl. done.
Qed.

(** X11: without a line that starts with ["Answer:"] the reference of the
    reply is dropped: whatever ["Reference:"] lines there are, the record
    holds the whole trimmed reply and the default reference. *)
Theorem parse_answer_reference_needs_answer (answer_text : string) :
  (forall line, line ∈ Py.splitlines answer_text ->
                Py.startswith line "Answer:" = false) ->
  _parse_answer answer_text
  = Ok {| answer := Py.strip answer_text;
          reference := "General document content";
          confidence := (8 # 10)%Q |}.
Proof.
  intros Hno. unfold _parse_answer.
  destruct (parse_answer_loop_ok (Py.splitlines answer_text)
              {| answer := ""; reference := ""; confidence := (8 # 10)%Q |})
    as (res & -> & Hc & Ha).
  simpl. rewrite (Ha Hno). simpl. by rewrite Hc.
Qed.

Lemma parse_answer_reference_needs_answer_witness :
  _parse_answer ("It is a drink." +:+ String "010" "Reference: section 2")
  = Ok {| answer :=
            Py.strip ("It is a drink." +:+ String "010" "Reference: section 2");
          reference := "General document content";
          confidence := (8 # 10)%Q |}.
Proof.
  apply (parse_answer_reference_needs_answer
           ("It is a drink." +:+ String "010" "Reference: section 2")).
  intros line Hl. vm_compute in Hl.
  repeat (apply elem_of_cons in Hl as [-> | Hl]; [reflexivity |]).
  by apply elem_of_nil in Hl.
Defined.

(** X12: [answer_question] never raises, and the history after it is the
    history before it, or that history followed by the one exchange made of
    the question and of the answer and reference it returns. *)
Theorem answer_question_history_grows (model : collaborator)
    (question document_text : string) (history : list exchange) :
  exists rec history',
    answer_question model question document_text history = (Ok rec, history')
    /\ (history' = history
        \/ history' = history ++ [ {| ex_question := question;
                                      ex_answer := answer rec;
                                      ex_reference := reference rec |} ]).
Proof.
  destruct (answer_steps model question document_text) as [parsed|e] eqn:Hs.
  - exists parsed. eexists. split; [by apply answer_question_success |].
    by right.
  - exists (error_record e), history. split; [| by left].
    unfold answer_question, try_catch, lift, modify, mbind, st_bind.
    by rewrite Hs.
Qed.

(** A text without words has no chunks. *)
Lemma chunk_text_no_words (text : string) (max_chunk_size overlap : Z) :
  0 <= overlap < max_chunk_size ->
  Py.split text = [] ->
  TextUtils.chunk_text text max_chunk_size overlap = Ok [].
Proof.
  intros Hpre HW.
  destruct (chunk_text_loop text max_chunk_size overlap Hpre)
    as (cnt & -> & Hrange & _).
  rewrite HW in *. simpl in Hrange.
  destruct cnt as [|cnt]; [done | nia].
Qed.

(** X13: for a document without words [answer_question] fails before it
    reaches the collaborator: whatever the question and the collaborator, it
    returns the error record of the [IndexError] and leaves the history. *)
Theorem answer_question_blank_document (model : collaborator)
    (question document_text : string) (history : list exchange) :
  Py.split document_text = [] ->
  answer_question model question document_text history
  = (Ok {| answer := "Error processing question: list index out of range";
           reference := "System error";
           confidence := 0%Q |},
     history).
Proof.
  intros HW.
  unfold answer_question, try_catch, lift, modify, mbind, st_bind.
  unfold answer_steps.
  by rewrite (chunk_text_no_words document_text 1500 150) by (done || lia).
Qed.

Lemma answer_question_blank_document_witness :
  answer_question (fun _ _ => Ok (Some "Answer: 42")) "What is it?" "  " []
  = (Ok {| answer := "Error processing question: list index out of range";
           reference := "System error";
           confidence := 0%Q |},
     []).
Proof.
  apply (answer_question_blank_document
           (fun _ _ => Ok (Some "Answer: 42")) "What is it?" "  " []).
  reflexivity.
Defined.



End Assistant.

Section Summary.

Import AIAssistant.

Lemma slice_to_nonneg {A : Type} (l : list A) (n : Z) :
  0 <= n -> Py.slice_to l n = take (Z.to_nat n) l.
Proof.
  intros Hn. unfold Py.slice_to, Py.slice, Py.bound.
  destruct (Z.ltb_spec n 0); [lia |].
  replace (0 <? 0) with false by done.
  rewrite (Z.min_l 0), Z.sub_0_r by lia.
  change (drop (Z.to_nat 0) l) with l.
  destruct (Z.le_ge_cases n (Z.of_nat (length l))).
  - by rewrite Z.min_l by lia.
  - rewrite Z.min_r, Nat2Z.id by lia.
    rewrite (take_ge l (length l)) by lia.
    by rewrite (take_ge l (Z.to_nat n)) by lia.
Qed.

Lemma join_cons_cons (sep v x : string) (l : list string) :
  Py.join sep (v :: x :: l) = v +:+ sep +:+ Py.join sep (x :: l).
Proof. done. Qed.

Lemma join_snoc_append (sep w t : string) (ws : list string) :
  Py.join sep (ws ++ [w]) +:+ t = Py.join sep (ws ++ [w +:+ t]).
Proof.
  induction ws as [|v ws IH]; [done |].
  destruct ws as [|v' ws].
  - change (Py.join sep ([v] ++ [w])) with (v +:+ sep +:+ w).
    change (Py.join sep ([v] ++ [w +:+ t])) with (v +:+ sep +:+ w +:+ t).
    by rewrite !append_assoc.
  - change ((v :: v' :: ws) ++ [w]) with (v :: v' :: (ws ++ [w])).
    change ((v :: v' :: ws) ++ [w +:+ t])
      with (v :: v' :: (ws ++ [w +:+ t])).
    rewrite !join_cons_cons, !append_assoc. do 2 f_equal. exact IH.
Qed.

Lemma token_append (w t : string) :
  token w -> all_chars (fun c => negb (Py.isspace c)) t = true ->
  token (w +:+ t).
Proof.
  intros [Hne Hw] Ht. split.
  - destruct w; [done | by simpl].
  - by rewrite all_chars_app, Hw, Ht.
Qed.

(** X15: when the collaborator answers, the summary has at most 150 words; a
    reply of at most 150 words is returned with its words joined by single
    spaces, and a longer one is cut after 150 words and ends in an
    ellipsis. *)
Theorem generate_summary_at_most_150_words (model : collaborator)
    (document_text : string) (text : option string) :
  model (summary_prompt
           (Py.join " " (TextUtils.extract_key_sentences document_text 8)))
        summary_config = Ok text ->
  let words := Py.split (Py.strip (if Py.truthy_opt text then default "" text
                                   else "")) in
  (length (Py.split (generate_summary model document_text)) <= 150)%nat
  /\ ((length words <= 150)%nat ->
      generate_summary model document_text = Py.join " " words)
  /\ ((150 < length words)%nat ->
      generate_summary model document_text
      = Py.join " " (take 150 words) +:+ "...").
Proof.
  intros Hm words. unfold generate_summary. rewrite Hm. simpl. fold words.
  assert (Forall token words) as Htok by apply split_tokens.
  destruct (Nat.ltb_spec 150 (length words)) as [Hlong | Hshort].
  - rewrite slice_to_nonneg by lia.
    change (Z.to_nat 150) with 150%nat.
    split; [| split; [lia | done]].
    assert (length (take 150 words) = 150%nat) as Hlen
      by (rewrite length_take; lia).
    assert (take 150 words <> []) as Hne
      by (intros Heq; by rewrite Heq in Hlen).
    destruct (exists_last Hne) as (ws & w & Htake).
    rewrite Htake in *. rewrite join_snoc_append, split_join.
    + rewrite length_app in *. simpl in *. lia.
    + assert (Forall token (ws ++ [w])) as Htw
        by (rewrite <- Htake; by apply Forall_take).
      apply Forall_app in Htw as [Hws Hw].
      apply Forall_app. split; [done |].
      constructor; [| done]. apply token_append; [| done].
      by inversion Hw.
  - rewrite slice_to_all by lia. rewrite append_nil_r.
    split; [by rewrite split_join | split; [done | lia]].
Qed.

Lemma generate_summary_at_most_150_words_witness :
  (length
     (Py.split
        (generate_summary (fun _ _ => Ok (Some "  Tea is   a drink. "))
                          "Tea.")) <= 150)%nat.
Proof.
  apply (generate_summary_at_most_150_words
           (fun _ _ => Ok (Some "  Tea is   a drink. ")) "Tea."
           (Some "  Tea is   a drink. ")).
  reflexivity.
Defined.

(** [generate_summary] turns a failure of the collaborator into text: it
    returns the message of the error behind a fixed prefix. *)
Lemma generate_summary_failure (model : collaborator)
    (document_text : string) (e : exn) :
  model (summary_prompt
           (Py.join " " (TextUtils.extract_key_sentences document_text 8)))
        summary_config = Raise e ->
  generate_summary model document_text
  = "Error generating summary: " +:+ exn_str e.
Proof. intros Hm. unfold generate_summary. by rewrite Hm. Qed.

End Summary.

(** ** The question generator: parsing, evaluation, statistics *)

Section Generator.

Import QuestionGenerator.

Lemma has_char_split (c : ascii) (s : string) :
  Py.has_char c s = true ->
  exists pre post, s = pre +:+ String c post /\ free_of c pre.
Proof.
  unfold Py.has_char. induction s as [|d s IH]; [done |].
  rewrite contains_cons. simpl String.prefix.
  destruct (ascii_dec c d) as [<-|Hne].
  - intros _. by exists "", s.
  - simpl. intros H. destruct (IH H) as (pre & post & -> & Hfree).
    exists (String d pre), post. split; [done |]. split; [congruence | done].
Qed.

(** The value after the first colon exists for a line with a colon. *)
Lemma colon_value (line : string) :
  Py.has_char ":" line = true ->
  exists v, Py.item (Py.split_max ":" 1 line) 1 = Ok v.
Proof.
  intros H. apply has_char_split in H as (pre & post & -> & Hfree).
  rewrite split_max_first by done. by exists post.
Qed.

Lemma random_choice_types (s : gen_state) :
  exists t s',
    random_choice question_types s = (Ok t, s')
    /\ t ∈ question_types
    /\ stdout s' = stdout s.
Proof.
  unfold random_choice.
  destruct (question_types
              !! (draws (random s) (pos (random s)) `mod` length question_types)%nat)
    as [t|] eqn:Ht.
  - eexists t, _. split; [done |]. split; [| done].
    by eapply list_elem_of_lookup_2.
  - apply lookup_ge_None in Ht.
    pose proof (Nat.mod_upper_bound
                  (draws (random s) (pos (random s)))
                  (length question_types) ltac:(done)). lia.
Qed.

Lemma truthy_not_empty (s : string) : Py.truthy s = true -> s <> "".
Proof. by intros H ->. Qed.

(** Appending the pending pair keeps the questions well formed. *)
Lemma flush_well_formed (p : parse_state) (s : gen_state) :
  Forall well_formed (questions p) ->
  exists qs s',
    flush p s = (Ok qs, s')
    /\ Forall well_formed qs
    /\ stdout s' = stdout s.
Proof.
  intros Hwf. unfold flush.
  destruct (current_q p) as [q|]; [| by eexists _, _].
  destruct (current_a p) as [a|]; [| by eexists _, _].
  destruct (Py.truthy q) eqn:Hq; [| by eexists _, _].
  destruct (Py.truthy a) eqn:Ha; [| by eexists _, _].
  simpl. destruct (random_choice_types s) as (t & s' & Hr & Ht & Hout).
  unfold mbind, st_bind. rewrite Hr. eexists _, _. split; [done |].
  split; [| done]. apply Forall_app. split; [done |].
  constructor; [| done].
  split; [by apply truthy_not_empty |].
  split; [by apply truthy_not_empty | done].
Qed.

Lemma parse_line_well_formed (p : parse_state) (line : string)
    (s : gen_state) :
  Forall well_formed (questions p) ->
  exists p' s',
    parse_line p line s = (Ok p', s')
    /\ Forall well_formed (questions p')
    /\ stdout s' = stdout s.
Proof.
  intros Hwf. unfold parse_line.
  destruct (Py.startswith (Py.strip line) "Q") eqn:HQ; simpl.
  - destruct (Py.has_char ":" (Py.strip line)) eqn:Hc; simpl.
    + destruct (flush_well_formed p s Hwf) as (qs & s' & Hf & Hqs & Hout).
      destruct (colon_value _ Hc) as [v Hv].
      unfold mbind, st_bind, lift. rewrite Hf, Hv. by eexists _, _.
    + destruct (Py.startswith (Py.strip line) "A"); simpl; by eexists _, _.
  - destruct (Py.startswith (Py.strip line) "A") eqn:HA; simpl;
      [| by eexists _, _].
    destruct (Py.has_char ":" (Py.strip line)) eqn:Hc; simpl;
      [| by eexists _, _].
    destruct (Py.truthy_opt (current_q p)); simpl; [| by eexists _, _].
    destruct (colon_value _ Hc) as [v Hv].
    unfold mbind, st_bind, lift. rewrite Hv. by eexists _, _.
Qed.

Lemma parse_lines_well_formed (lines : list string) (p : parse_state)
    (s : gen_state) :
  Forall well_formed (questions p) ->
  exists p' s',
    parse_lines lines p s = (Ok p', s')
    /\ Forall well_formed (questions p')
    /\ stdout s' = stdout s.
Proof.
  revert p s. induction lines as [|line lines IH]; intros p s Hwf; simpl.
  - by eexists _, _.
  - destruct (parse_line_well_formed p line s Hwf)
      as (p1 & s1 & Hl & Hwf1 & Hout1).
    destruct (IH p1 s1 Hwf1) as (p2 & s2 & Hls & Hwf2 & Hout2).
    unfold mbind, st_bind. rewrite Hl, Hls. eexists _, _.
    split; [done |]. split; [done | congruence].
Qed.

(** [_parse_questions] always returns, with questions that are well
    formed. *)
Lemma parse_questions_total (questions_text : string) (s : gen_state) :
  exists qs s',
    _parse_questions questions_text s = (Ok qs, s')
    /\ (length qs <= 3)%nat
    /\ Forall well_formed qs
    /\ stdout s' = stdout s.
Proof.
  unfold _parse_questions.
  destruct (parse_lines_well_formed
              (Py.split_on "010" (Py.strip questions_text))
              {| questions := []; current_q := None; current_a := None |} s)
    as (p & s1 & Hp & Hwf & Hout1); [constructor |].
  destruct (flush_well_formed p s1 Hwf) as (qs & s2 & Hf & Hqs & Hout2).
  unfold mbind, st_bind. rewrite Hp, Hf. simpl.
  rewrite slice_to_nonneg by lia. eexists _, _. split; [done |].
  split; [rewrite length_take; lia |].
  split; [by apply Forall_take | congruence].
Qed.

(** X16: [_parse_questions] never raises and prints nothing; it returns at
    most 3 questions, each with a question and an expected answer that are
    not empty and a type among the four. *)
Theorem parse_questions_well_formed (questions_text : string)
    (s : gen_state) :
  exists qs s',
    _parse_questions questions_text s = (Ok qs, s')
    /\ (length qs <= 3)%nat
    /\ Forall well_formed qs
    /\ stdout s' = stdout s.
Proof. apply parse_questions_total. Qed.

Lemma fallback_well_formed (document_text : string) :
  Forall well_formed (_generate_fallback_questions document_text).
Proof.
  repeat constructor; simpl; try done; unfold question_types; set_solver.
Qed.

(** [generate_challenge_questions] always returns, with questions that
    are well formed. *)
Lemma generate_challenge_questions_total (model : collaborator)
    (document_text : string) (s : gen_state) :
  exists qs s',
    generate_challenge_questions model document_text s = (Ok qs, s')
    /\ (length qs <= 3)%nat
    /\ Forall well_formed qs.
Proof.
  unfold generate_challenge_questions, try_catch, lift.
  unfold mbind at 1. unfold st_bind.
  destruct (model _ _) as [text|e].
  - destruct (parse_questions_total
                (if Py.truthy_opt text then default "" text else "") s)
      as (qs & s' & -> & Hlen & Hwf & _).
    by eexists _, _.
  - eexists _, _. split; [reflexivity |].
    split; [simpl; lia | apply fallback_well_formed].
Qed.

(** X17: whatever the collaborator does, [generate_challenge_questions]
    returns normally with at most 3 questions, each with a question and an
    expected answer that are not empty and a type among the four. *)
Theorem generate_challenge_questions_well_formed (model : collaborator)
    (document_text : string) (s : gen_state) :
  exists qs s',
    generate_challenge_questions model document_text s = (Ok qs, s')
    /\ (length qs <= 3)%nat
    /\ Forall well_formed qs.
Proof. apply generate_challenge_questions_total. Qed.

(** [evaluate_answer] always returns, with a score in range. *)
Lemma evaluate_answer_total (model : collaborator)
    (question user_answer document_text correct_answer : string)
    (s : gen_state) :
  exists ev s',
    evaluate_answer model question user_answer document_text correct_answer s
    = (Ok ev, s')
    /\ 1 <= score ev <= 5
    /\ random s' = random s
    /\ (forall e,
           model (evaluation_prompt question user_answer document_text
                                    correct_answer)
                 evaluation_config = Raise e ->
           ev = evaluation_unavailable).
Proof.
  unfold evaluate_answer, try_catch, lift.
  unfold mbind at 1. unfold st_bind. fold evaluation_config.
  destruct (model _ evaluation_config) as [text|e].
  - unfold _parse_evaluation.
    destruct (parse_evaluation_loop_range
                (Py.split_on "010"
                   (if Py.truthy_opt text then default "" text else ""))
                {| score := 3; feedback := ""; justification := "" |})
      as (ev & -> & Hrange); [simpl; lia |].
    by eexists _, _.
  - eexists _, _. split; [reflexivity |]. simpl.
    split; [lia |]. split; [done |]. done.
Qed.

(** X18: whatever the collaborator does, [evaluate_answer] returns normally
    with a score from 1 to 5 and does not touch the random generator; when
    the collaborator fails, the evaluation is the fixed one with score 3. *)
Theorem evaluate_answer_score_in_range (model : collaborator)
    (question user_answer document_text correct_answer : string)
    (s : gen_state) :
  exists ev s',
    evaluate_answer model question user_answer document_text correct_answer s
    = (Ok ev, s')
    /\ 1 <= score ev <= 5
    /\ random s' = random s
    /\ (forall e,
           model (evaluation_prompt question user_answer document_text
                                    correct_answer)
                 evaluation_config = Raise e ->
           ev = evaluation_unavailable).
Proof. apply evaluate_answer_total. Qed.

End Generator.

Section Statistics.

Import QuestionGenerator.

Lemma count_of_type_snoc (t : string) (seen : list (gmap string string))
    (q : gmap string string) :
  count_of_type t (seen ++ [q])
  = (count_of_type t seen
     + if String.eqb (default "unknown" (q !! "type")) t then 1 else 0)%nat.
Proof.
  unfold count_of_type. rewrite List.filter_app, length_app. simpl.
  by destruct (String.eqb _ t).
Qed.

Lemma counts_of_step (counts : gmap string nat)
    (seen : list (gmap string string)) (q : gmap string string) :
  counts_of counts seen -> counts_of (count_type counts q) (seen ++ [q]).
Proof.
  intros H t. unfold count_type. rewrite count_of_type_snoc.
  destruct (String.eqb_spec (default "unknown" (q !! "type")) t) as [->|Hne].
  - rewrite lookup_insert_eq, (H t).
    repeat case_decide; simpl; try lia; f_equal; lia.
  - rewrite lookup_insert_ne by done. rewrite (H t), Nat.add_0_r. done.
Qed.

Lemma counts_of_fold (rest seen : list (gmap string string))
    (counts : gmap string nat) :
  counts_of counts seen ->
  counts_of (fold_left count_type rest counts) (seen ++ rest).
Proof.
  revert seen counts. induction rest as [|q rest IH]; intros seen counts H.
  - by rewrite app_nil_r.
  - simpl. rewrite (cons_middle q seen rest), app_assoc.
    apply IH. by apply counts_of_step.
Qed.

Lemma sum_counts_step (counts : gmap string nat) (t : string) :
  sum_counts (<[t := (default O (counts !! t) + 1)%nat]> counts)
  = S (sum_counts counts).
Proof.
  unfold sum_counts.
  assert (forall (m : gmap string nat) j1 j2 z1 z2 (y : nat),
             j1 <> j2 -> m !! j1 = Some z1 -> m !! j2 = Some z2 ->
             (z1 + (z2 + y) = z2 + (z1 + y))%nat) as Hcomm
    by (intros; lia).
  destruct (counts !! t) as [c|] eqn:Hc; simpl.
  - rewrite <- insert_delete_eq.
    rewrite (map_fold_insert_L _ _ _ _ _ (Hcomm _))
      by apply lookup_delete_eq.
    rewrite (map_fold_delete_L _ _ t c counts (Hcomm _) Hc). lia.
  - by rewrite (map_fold_insert_L _ _ _ _ _ (Hcomm _)) by done.
Qed.

Lemma sum_counts_fold (questions : list (gmap string string))
    (counts : gmap string nat) :
  sum_counts (fold_left count_type questions counts)
  = (sum_counts counts + length questions)%nat.
Proof.
  revert counts. induction questions as [|q qs IH]; intros counts; simpl.
  - lia.
  - rewrite IH. unfold count_type. rewrite sum_counts_step. lia.
Qed.

(** X19: when [get_question_statistics] returns, the total is the number of
    questions, the entry of every type is the number of questions that have
    it (a question without the key counts as ["unknown"], and a type no
    question has gets no entry), and the entries add up to the total. *)
Theorem question_statistics_counts (questions : list (gmap string string))
    (stats : statistics) :
  get_question_statistics questions = Some stats ->
  total stats = length questions
  /\ (forall t, types stats !! t
                = if decide (count_of_type t questions = O) then None
                  else Some (count_of_type t questions))
  /\ sum_counts (types stats) = total stats.
Proof.
  unfold get_question_statistics. case_bool_decide as Hnil.
  - intros [= <-]. subst questions. simpl. split; [done |].
    split; [| done]. intros t. by rewrite lookup_empty.
  - destruct (total_question_length questions); [| done].
    intros [= <-]. simpl. split; [done |]. split.
    + apply (counts_of_fold questions [] ∅). intros t.
      by rewrite lookup_empty.
    + by rewrite sum_counts_fold.
Qed.

Lemma question_statistics_counts_witness :
  exists stats,
    get_question_statistics (as_dict <$> _generate_fallback_questions "")
    = Some stats
    /\ total stats = 3%nat
    /\ types stats !! "inference" = Some 1%nat
    /\ sum_counts (types stats) = 3%nat.
Proof.
  destruct (get_question_statistics
              (as_dict <$> _generate_fallback_questions "")) as [stats|] eqn:H;
    [| by vm_compute in H].
  destruct (question_statistics_counts _ stats H) as (Ht & Hc & Hs).
  exists stats. split; [done |]. split; [exact Ht |].
  split; [| by rewrite Hs, Ht]. by rewrite (Hc "inference").
Defined.

Lemma total_question_length_None (questions : list (gmap string string)) :
  total_question_length questions = None
  <-> exists q, q ∈ questions /\ q !! "question" = None.
Proof.
  induction questions as [|q qs IH]; simpl.
  - split; [done |]. intros (q & Hq & _). by apply elem_of_nil in Hq.
  - destruct (q !! "question") as [text|] eqn:Hq.
    + destruct (total_question_length qs) as [n|].
      * split; [done |]. intros (q' & Hin & Hnone).
        apply elem_of_cons in Hin as [->|Hin]; [congruence |].
        assert (Some n = None) as Heq by (apply IH; by exists q').
        done.
      * split; [| done]. intros _.
        destruct (proj1 IH eq_refl) as (q' & Hin & Hnone).
        exists q'. split; [by apply list_elem_of_further | done].
    + split; [| done]. intros _. exists q.
      split; [apply list_elem_of_here | done].
Qed.

(** X20: [get_question_statistics] fails, with the [KeyError] of the lookup
    [q["question"]], exactly when some question has no ["question"] key; a
    missing ["type"] key never makes it fail. Hence it never fails on
    questions the generator made. *)
Theorem question_statistics_key_error :
  (forall questions : list (gmap string string),
      get_question_statistics questions = None
      <-> exists q, q ∈ questions /\ q !! "question" = None)
  /\ (forall qs : list challenge_question,
         is_Some (get_question_statistics (as_dict <$> qs))).
Proof.
  assert (forall questions : list (gmap string string),
             get_question_statistics questions = None
             <-> exists q, q ∈ questions /\ q !! "question" = None) as Hiff.
  { intros questions. unfold get_question_statistics.
    case_bool_decide as Hnil.
    - subst. split; [done |]. intros (q & Hq & _). by apply elem_of_nil in Hq.
    - rewrite <- total_question_length_None.
      by destruct (total_question_length questions). }
  split; [exact Hiff |].
  intros qs. destruct (get_question_statistics (as_dict <$> qs)) eqn:H;
    [done |].
  apply Hiff in H as (q & Hq & Hnone).
  apply list_elem_of_fmap in Hq as (q0 & -> & _).
  unfold as_dict in Hnone. by rewrite lookup_insert_eq in Hnone.
Qed.

End Statistics.

(** ** Validation and document processing *)

Section Validation.

Import OsPath Validators.

Lemma str_take_drop (n : nat) (s : string) :
  str_take n s +:+ str_drop n s = s.
Proof.
  revert s. induction n as [|n IH]; intros [|c s]; simpl; try done.
  by rewrite IH.
Qed.

(** The two parts [splitext] returns make up the path. *)
Lemma splitext_join (p : string) : (splitext p).1 +:+ (splitext p).2 = p.
Proof.
  unfold splitext. destruct (rfind "/" p <? rfind "." p).
  - destruct (has_non_dot _ _); simpl.
    + apply str_take_drop.
    + apply append_nil_r.
  - simpl. apply append_nil_r.
Qed.

Lemma supported_format (ext : string) :
  ext ∈ Settings.SUPPORTED_FORMATS <-> ext = ".pdf" \/ ext = ".txt".
Proof.
  unfold Settings.SUPPORTED_FORMATS.
  rewrite !elem_of_cons, elem_of_nil. tauto.
Qed.

(** When [validate_file] accepts, the extension of the name is supported
    and the size is within the limit; and conversely. *)
Lemma validate_file_true (file : uploaded_file) :
  validate_file (Some file) = (true, None)
  <-> Py.lower (splitext (name file)).2 ∈ Settings.SUPPORTED_FORMATS
      /\ size file <= Settings.MAX_FILE_SIZE.
Proof.
  unfold validate_file. case_bool_decide as Hext; simpl.
  - destruct (Z.ltb_spec Settings.MAX_FILE_SIZE (size file)).
    + split; [done | lia].
    + split; [done | by intros _].
  - split; [done | tauto].
Qed.

Lemma validate_file_message (file : option uploaded_file)
    (msg : option string) :
  validate_file file = (true, msg) -> msg = None.
Proof.
  unfold validate_file. destruct file as [file|]; [| done].
  case_bool_decide; simpl; [| done].
  destruct (_ <? _); congruence.
Qed.

Lemma validate_file_false (file : option uploaded_file) :
  (validate_file file).1 = false -> exists msg, (validate_file file).2 = Some msg.
Proof.
  unfold validate_file. destruct file as [file|]; [| by eexists].
  case_bool_decide; simpl; [| by eexists].
  destruct (_ <? _); simpl; [by eexists | done].
Qed.

(** X21: a file that [validate_file] accepts has a name that ends in [.pdf]
    or [.txt], in any mix of upper and lower case, and a size of at most
    10 MiB; and no message comes with the acceptance. *)
Theorem validate_file_accepted (file : option uploaded_file) :
  (validate_file file).1 = true ->
  exists f root ext,
    file = Some f
    /\ name f = root +:+ ext
    /\ (Py.lower ext = ".pdf" \/ Py.lower ext = ".txt")
    /\ size f <= 10485760
    /\ (validate_file file).2 = None.
Proof.
  destruct file as [f|]; [| done]. intros Hok.
  assert (validate_file (Some f) = (true, None)) as Hv.
  { unfold validate_file in *. case_bool_decide; simpl in *; [| done].
    by destruct (_ <? _). }
  pose proof (proj1 (validate_file_true f) Hv) as [Hext Hsize].
  exists f, (splitext (name f)).1, (splitext (name f)).2.
  split; [done |]. split; [by rewrite splitext_join |].
  split; [by apply supported_format |].
  split; [exact Hsize | by rewrite Hv].
Qed.

Lemma validate_file_accepted_witness :
  exists f root ext,
    Some {| name := "Report.PDF"; size := 2048; read := Ok (Text "") |}
    = Some f
    /\ name f = root +:+ ext
    /\ (Py.lower ext = ".pdf" \/ Py.lower ext = ".txt")
    /\ size f <= 10485760
    /\ (validate_file
          (Some {| name := "Report.PDF"; size := 2048;
                   read := Ok (Text "") |})).2 = None.
Proof.
  apply (validate_file_accepted
           (Some {| name := "Report.PDF"; size := 2048;
                    read := Ok (Text "") |})).
  reflexivity.
Defined.

Lemma truthy_length (s : string) :
  Py.truthy s = negb (String.length s =? 0)%nat.
Proof. by destruct s. Qed.

Lemma all_space_rstrip (s : string) :
  all_chars Py.isspace s = true -> Py.rstrip_by Py.isspace s = "".
Proof.
  induction s as [|c s IH]; simpl; [done |].
  intros H. apply andb_true_iff in H as [Hc Hs]. by rewrite (IH Hs), Hc.
Qed.

Lemma split_go_nil (s cur : string) :
  Py.split_go cur s = [] -> cur = "" /\ all_chars Py.isspace s = true.
Proof.
  revert cur. induction s as [|c s IH]; intros cur; simpl.
  - destruct (String.eqb_spec cur ""); [done | done].
  - destruct (Py.isspace c) eqn:Hc; simpl.
    + destruct (String.eqb_spec cur "") as [->|]; [| done].
      intros H. by destruct (IH "" H).
    + intros H. destruct (IH _ H) as [Hne _].
      by apply append_not_empty in Hne.
Qed.

(** A text without words is blank. *)
Lemma split_nil_blank (s : string) : Py.split s = [] -> Py.strip s = "".
Proof.
  intros H. apply split_go_nil in H as [_ H].
  unfold Py.strip. by rewrite all_space_rstrip.
Qed.

(** X22: [validate_question] accepts a question exactly when its trimmed
    length is at least 5 and its length, untrimmed, is at most 500; an
    accepted question comes without a message and has at least one word. *)
Theorem validate_question_accepts (question : string) :
  ((validate_question question).1 = true
   <-> (5 <= String.length (Py.strip question))%nat
       /\ (String.length question <= 500)%nat)
  /\ ((validate_question question).1 = true ->
      (validate_question question).2 = None /\ Py.split question <> []).
Proof.
  assert ((validate_question question).1 = true
          <-> (5 <= String.length (Py.strip question))%nat
              /\ (String.length question <= 500)%nat) as Hiff.
  { unfold validate_question. rewrite !truthy_length.
    pose proof (strip_length question).
    destruct (String.length question =? 0)%nat eqn:H0; simpl.
    { apply Nat.eqb_eq in H0. split; [done | lia]. }
    destruct (String.length (Py.strip question) =? 0)%nat eqn:H1; simpl.
    { apply Nat.eqb_eq in H1. split; [done | lia]. }
    destruct (Nat.ltb_spec (String.length (Py.strip question)) 5); simpl.
    { split; [done | lia]. }
    destruct (Nat.ltb_spec 500 (String.length question)); simpl.
    { split; [done | lia]. }
    split; [lia | done]. }
  split; [exact Hiff |]. intros Hok. split.
  - revert Hok. unfold validate_question.
    destruct (negb (Py.truthy question) || _); [done |].
    destruct (String.length (Py.strip question) <? 5)%nat; [done |].
    by destruct (500 <? String.length question)%nat.
  - apply Hiff in Hok as [Hlen _]. intros Hnil.
    apply split_nil_blank in Hnil. rewrite Hnil in Hlen. simpl in Hlen. lia.
Qed.

(** X23: [validate_text_content] accepts a text exactly when its trimmed
    length is at least 50, and [validate_api_key] a key exactly when its
    trimmed length is at least 10. *)
Theorem validate_trimmed_length :
  (forall text,
      (validate_text_content text).1 = true
      <-> (50 <= String.length (Py.strip text))%nat)
  /\ (forall api_key,
         (validate_api_key api_key).1 = true
         <-> (10 <= String.length (Py.strip api_key))%nat).
Proof.
  split; intros s; [unfold validate_text_content | unfold validate_api_key];
    rewrite !truthy_length; pose proof (strip_length s);
    (destruct (String.length s =? 0)%nat eqn:H0; simpl;
     [apply Nat.eqb_eq in H0; split; [done | lia] |]);
    (destruct (String.length (Py.strip s) =? 0)%nat eqn:H1; simpl;
     [apply Nat.eqb_eq in H1; split; [done | lia] |]);
    (destruct (_ <? _)%nat eqn:H2; simpl;
     [apply Nat.ltb_lt in H2; split; [done | lia]
     | apply Nat.ltb_ge in H2; split; [lia | done]]).
Qed.

End Validation.

Section Processing.

Import OsPath Validators DocumentProcessor.

Variable reader : pdf_reader.
Variable decode_utf8 : list Byte.byte -> option string.

Lemma truthy_false_empty (s : string) : Py.truthy s = false -> s = "".
Proof. by destruct s. Qed.

(** X24: [process_file] never raises and its three results fit together: a
    success comes without a message and with a text of allowed characters
    only; a failure comes with the empty text and a message, which is the
    message of [validate_file], or that no readable text was found, or the
    message of an error behind ["Error processing file: "]. A file that
    passed the validation is never reported as an unsupported format. *)
Theorem process_file_results (uploaded_file : option uploaded_file) :
  let r := process_file reader decode_utf8 uploaded_file in
  (r.1.1 = true -> r.2 = None /\ all_chars TextUtils.allowed r.1.2 = true)
  /\ (r.1.1 = false ->
      r.1.2 = ""
      /\ (((validate_file uploaded_file).1 = false
           /\ r.2 = (validate_file uploaded_file).2
           /\ is_Some r.2)
          \/ r.2 = Some "No readable text found in the document"
          \/ exists message,
               r.2 = Some ("Error processing file: " +:+ message))).
Proof.
  unfold process_file.
  destruct (validate_file uploaded_file) as [is_valid error_msg] eqn:Hv.
  destruct is_valid; simpl.
  - destruct uploaded_file as [file|]; [| done].
    rewrite (validate_file_message _ _ Hv) in Hv.
    apply validate_file_true in Hv as [Hext _].
    apply supported_format in Hext.
    unfold process_steps.
    set (text :=
           if String.eqb (Py.lower (splitext (name file)).2) ".pdf"
           then Some (_extract_pdf_text reader file)
           else if String.eqb (Py.lower (splitext (name file)).2) ".txt"
                then Some (_extract_txt_text decode_utf8 file)
                else None).
    assert (is_Some text) as [o Ho].
    { subst text. destruct Hext as [-> | ->]; by eexists. }
    rewrite Ho. destruct o as [t|message]; simpl.
    + destruct (Py.truthy (Py.strip t)); simpl.
      * split; [| done]. intros _. split; [done |].
        apply clean_text_allowed.
      * split; [done |]. intros _. split; [done |]. right. by left.
    + split; [done |]. intros _. split; [done |]. right. right. by eexists.
  - split; [done |]. intros _. split; [done |]. left. split; [done |].
    split; [done |].
    pose proof (validate_file_false uploaded_file) as Hf.
    rewrite Hv in Hf. simpl in Hf. destruct (Hf eq_refl) as [msg ->].
    by eexists.
Qed.

(** X25: a [.txt] upload that passed the validation and whose bytes can be
    read never ends in an error: bytes that are not UTF-8 are read as
    Latin-1, and the result is the cleaned text, or the report that no
    readable text was found when the text is blank. *)
Theorem process_file_txt_bytes (file : uploaded_file)
    (content : list Byte.byte) :
  validate_file (Some file) = (true, None) ->
  Py.lower (splitext (name file)).2 = ".txt" ->
  read file = Ok (Bytes content) ->
  let text := default (decode_latin1 content) (decode_utf8 content) in
  process_file reader decode_utf8 (Some file)
  = if Py.truthy (Py.strip text) then (true, TextUtils.clean_text text, None)
    else (false, "", Some "No readable text found in the document").
Proof.
  intros Hv Hext Hread text. unfold process_file. rewrite Hv. simpl.
  rewrite Hext. simpl. unfold _extract_txt_text. rewrite Hread.
  subst text. destruct (decode_utf8 content); simpl;
    by destruct (Py.truthy _).
Qed.

(** Pages without text leave the text as it is. *)
Lemma extract_pages_no_text (pages : list (result (option string)))
    (text : string) :
  Forall (fun page => exists t, page = Ok t /\ Py.truthy_opt t = false) pages ->
  extract_pages pages text = Returned text.
Proof.
  induction 1 as [|page pages (t & -> & Ht) _ IH]; simpl; [done |].
  by rewrite Ht.
Qed.

(** X26: a [.pdf] upload that passed the validation and none of whose pages
    yields text is reported as having no readable text. *)
Theorem process_file_pdf_without_text (file : uploaded_file)
    (pages : list (result (option string))) :
  validate_file (Some file) = (true, None) ->
  Py.lower (splitext (name file)).2 = ".pdf" ->
  reader file = Ok pages ->
  Forall (fun page => exists t, page = Ok t /\ Py.truthy_opt t = false) pages ->
  process_file reader decode_utf8 (Some file)
  = (false, "", Some "No readable text found in the document").
Proof.
  intros Hv Hext Hreader Hpages. unfold process_file. rewrite Hv. simpl.
  rewrite Hext. simpl. unfold _extract_pdf_text. rewrite Hreader.
  by rewrite extract_pages_no_text.
Qed.

End Processing.

Lemma process_file_txt_bytes_witness :
  DocumentProcessor.process_file (fun _ => Ok []) (fun _ => None)
    (Some {| Validators.name := "notes.txt"; Validators.size := 4;
             Validators.read :=
               Ok (Validators.Bytes [Byte.x54; Byte.xe9; Byte.x20; Byte.x21]) |})
  = (true, String "T" (String "233" " !"), None).
Proof.
  apply (process_file_txt_bytes (fun _ => Ok []) (fun _ => None)
           {| Validators.name := "notes.txt"; Validators.size := 4;
              Validators.read :=
                Ok (Validators.Bytes
                      [Byte.x54; Byte.xe9; Byte.x20; Byte.x21]) |}
           [Byte.x54; Byte.xe9; Byte.x20; Byte.x21]);
    reflexivity.
Defined.

Lemma process_file_pdf_without_text_witness :
  DocumentProcessor.process_file
    (fun _ => Ok [Ok None; Ok (Some "")]) (fun _ => None)
    (Some {| Validators.name := "scan.pdf"; Validators.size := 4;
             Validators.read := Ok (Validators.Text "") |})
  = (false, "", Some "No readable text found in the document").
Proof.
  apply (process_file_pdf_without_text
           (fun _ => Ok [Ok None; Ok (Some "")]) (fun _ => None)
           {| Validators.name := "scan.pdf"; Validators.size := 4;
              Validators.read := Ok (Validators.Text "") |}
           [Ok None; Ok (Some "")]);
    [reflexivity | reflexivity | reflexivity |].
  repeat constructor; by eexists.
Defined.

(** ** The challenge flow *)

Section Flow.

Import QuestionGenerator App ChallengeFlow.

Variable model : collaborator.

Lemma flow_inv_start (document : string) (g : gen_state) :
  flow_inv (start document g).
Proof.
  unfold flow_inv, start. simpl. split; [lia |]. split; [by left |].
  intros k ev H. by rewrite lookup_empty in H.
Qed.

Lemma flow_inv_fresh (ss : session_state) (g : gen_state) :
  current_question_index ss = 0 ->
  flow_inv {| app := {| session := ss; generator := g |};
              user_answers := ∅; evaluations := ∅ |}.
Proof.
  intros Hidx. unfold flow_inv. simpl. rewrite Hidx.
  split; [lia |]. split; [by left |].
  intros k ev H. by rewrite lookup_empty in H.
Qed.

(** An index in range is found. *)
Lemma index_in_range {A : Type} (l : list A) (i : Z) :
  0 <= i < Z.of_nat (length l) -> exists x, index l i = Ok x.
Proof.
  intros Hi. unfold index.
  destruct (Z.ltb_spec i 0); [lia |].
  destruct (Z.ltb_spec i 0); [lia |].
  destruct (Z.leb_spec (Z.of_nat (length l)) i); [lia |]. simpl.
  unfold Py.item.
  destruct (l !! Z.to_nat i) as [x|] eqn:Hx; [by exists x |].
  apply lookup_ge_None in Hx. lia.
Qed.

Lemma flow_inv_run (w : widgets) (s : flow_state) :
  flow_inv s -> flow_inv (run model w s).1.
Proof.
  intros (Hnn & Hidx & Hev). unfold run.
  case_bool_decide as Hempty.
  - (* no questions yet: the index is 0 and nothing is stored *)
    assert (current_question_index (session (app s)) = 0) as H0.
    { rewrite Hempty in Hidx. simpl in Hidx. lia. }
    assert (forall k ev, evaluations s !! k = Some ev -> False) as Hnone.
    { intros k ev H. apply Hev in H as [Hk _].
      rewrite Hempty in Hk. simpl in Hk. lia. }
    unfold show_challenge_interface. rewrite Hempty. simpl.
    destruct (generate_clicked w).
    + destruct (generate_challenge_questions _ _ _) as [[qs|e] g']; simpl.
      * unfold flow_inv. simpl. rewrite H0.
        split; [lia |]. split; [by left |].
        intros k ev H. by destruct (Hnone k ev H).
      * unfold flow_inv. simpl. split; [done |]. split; [done |]. exact Hev.
    + simpl. unfold flow_inv. by destruct s as [[? ?] ? ?].
  - unfold show_challenge_questions.
    set (ss := session (app s)) in *.
    set (len := Z.of_nat (length (challenge_questions ss))) in *.
    destruct (Z.ltb_spec (current_question_index ss) len) as [Hlt | Hge].
    + destruct (index_in_range (challenge_questions ss)
                  (current_question_index ss) ltac:(fold len; lia))
        as [question_data ->].
      destruct (submit_clicked w && Py.truthy (Py.strip (user_answer w))).
      * simpl. unfold evaluate_answer. fold ss.
        destruct (evaluate_answer_total model (question question_data)
                    (user_answer w) (document_text ss)
                    (expected_answer question_data) (generator (app s)))
          as (ev & g' & -> & Hscore & _).
        unfold flow_inv. simpl. fold len.
        split; [done |]. split; [done |].
        intros k ev' Hk.
        destruct (decide (k = current_question_index ss)) as [->|Hne].
        -- rewrite lookup_insert_eq in Hk. injection Hk as <-.
           split; [lia |]. split; [done |].
           rewrite lookup_insert_eq. by eexists.
        -- rewrite lookup_insert_ne in Hk by done.
           destruct (Hev k ev' Hk) as (? & ? & ?).
           split; [done |]. split; [done |].
           by rewrite lookup_insert_ne by done.
      * destruct ((current_question_index ss <? len - 1) && next_clicked w)
          eqn:Hnext; simpl.
        -- apply andb_true_iff in Hnext as [Hlast _].
           apply Z.ltb_lt in Hlast.
           unfold flow_inv. simpl. fold ss. fold len.
           split; [lia |]. split; [right; lia |]. exact Hev.
        -- done.
    + simpl. unfold show_challenge_results.
      destruct (try_new_clicked w); [by apply flow_inv_fresh |].
      destruct (upload_new_clicked w); [by apply flow_inv_fresh | done].
Qed.

Lemma flow_inv_step (s : flow_state) (ev : event) :
  flow_inv s -> flow_inv (step model s ev).
Proof.
  intros H. destruct ev as [w|document]; simpl.
  - by apply flow_inv_run.
  - by apply flow_inv_fresh.
Qed.

Lemma flow_inv_reachable (document : string) (g : gen_state)
    (events : list event) :
  flow_inv (fold_left (step model) events (start document g)).
Proof.
  assert (forall s, flow_inv s -> flow_inv (fold_left (step model) events s))
    as Hfold.
  { induction events as [|ev events IH]; intros s Hs; simpl; [done |].
    apply IH. by apply flow_inv_step. }
  apply Hfold, flow_inv_start.
Qed.

(** X27: in a session that starts with a document, whatever runs and uploads
    come before and whatever the widgets return, a run of the challenge flow
    shows the button that generates questions or a question whose index is
    in range: it never raises an [IndexError], and it never reaches
    [show_challenge_results], because the button for the next question is
    not offered on the last question. *)
Theorem challenge_results_never_shown (document : string) (g : gen_state)
    (events : list event) (w : widgets) :
  let s := fold_left (step model) events (start document g) in
  (run model w s).2 = GeneratePage
  \/ exists i,
       (run model w s).2 = QuestionPage i
       /\ 0 <= i < Z.of_nat (length (challenge_questions (session (app s)))).
Proof.
  intros s.
  destruct (flow_inv_reachable document g events) as (Hnn & Hidx & _).
  fold s in Hnn, Hidx. unfold run.
  case_bool_decide as Hempty.
  - left. unfold show_challenge_interface. rewrite Hempty. simpl.
    destruct (generate_clicked w); [| done].
    destruct (generate_challenge_questions_total model
                (document_text (session (app s))) (generator (app s)))
      as (qs & g' & -> & _).
    done.
  - right. exists (current_question_index (session (app s))).
    assert (current_question_index (session (app s))
            < Z.of_nat (length (challenge_questions (session (app s)))))
      as Hlt.
    { destruct Hidx as [-> | ?]; [| done].
      destruct (challenge_questions (session (app s))); [done | simpl; lia]. }
    unfold show_challenge_questions.
    destruct (Z.ltb_spec (current_question_index (session (app s)))
                (Z.of_nat (length (challenge_questions (session (app s))))));
      [| lia].
    destruct (index_in_range (challenge_questions (session (app s)))
                (current_question_index (session (app s))) ltac:(lia))
      as [question_data ->].
    split; [| lia].
    destruct (submit_clicked w && _); [done |].
    by destruct (_ && next_clicked w).
Qed.


End Flow.


(** ** The question parser on a reply in the requested format *)

Section RoundTrip.

Import QuestionGenerator.

Lemma free_of_app (c : ascii) (s t : string) :
  free_of c (s +:+ t) <-> free_of c s /\ free_of c t.
Proof. induction s as [|d s IH]; simpl; [tauto |]. rewrite IH. tauto. Qed.

Lemma append_filled (s t : string) : t <> "" -> s +:+ t <> "".
Proof. intros Ht. destruct s; [done | by simpl]. Qed.

Lemma ends_with_ws_app (s t : string) :
  t <> "" -> ends_with_ws (s +:+ t) = ends_with_ws t.
Proof.
  intros Ht. induction s as [|c s IH]; [done |].
  change (String c s +:+ t) with (String c (s +:+ t)).
  destruct (s +:+ t) as [|d r] eqn:Hst.
  - destruct s; [by simpl in Hst | done].
  - by rewrite ends_with_ws_cons.
Qed.

(** Splitting at a separator that a first piece does not hold. *)
Lemma split_on_first (sep : ascii) (pre rest : string) :
  free_of sep pre ->
  Py.split_on sep (pre +:+ String sep rest) = pre :: Py.split_on sep rest.
Proof.
  induction pre as [|c pre IH]; simpl; intros Hfree.
  - by rewrite Ascii.eqb_refl.
  - destruct Hfree as [Hc Hfree]. apply Ascii.eqb_neq in Hc.
    by rewrite Hc, (IH Hfree).
Qed.

Lemma split_on_free (sep : ascii) (s : string) :
  free_of sep s -> Py.split_on sep s = [s].
Proof.
  induction s as [|c s IH]; simpl; [done |]. intros [Hc Hfree].
  apply Ascii.eqb_neq in Hc. by rewrite Hc, (IH Hfree).
Qed.

(** Lines joined by line feeds are split into the same lines. *)
Lemma split_on_join (lines : list string) :
  lines <> [] ->
  Forall (free_of "010") lines ->
  Py.split_on "010" (Py.join (String "010" "") lines) = lines.
Proof.
  intros Hne Hall. induction Hall as [|l lines Hl Hall IH]; [done |].
  destruct lines as [|l' lines].
  - by apply split_on_free.
  - rewrite join_cons_cons.
    change (String "010" "" +:+ Py.join (String "010" "") (l' :: lines))
      with (String "010" (Py.join (String "010" "") (l' :: lines))).
    rewrite split_on_first by done. by rewrite IH.
Qed.

Lemma strip_space_value (v : string) :
  clean_value v -> Py.strip (" " +:+ v) = v.
Proof.
  intros (Hne & Hs & He & _). unfold Py.strip.
  change (" " +:+ v) with (String " " v).
  rewrite rstrip_fixed.
  - simpl. by apply lstrip_fixed.
  - destruct v; [done |]. by rewrite ends_with_ws_cons.
Qed.

(** A line of the reply: a letter, a label, a colon, a space, a value. *)
Lemma reply_line_facts (letter : ascii) (label value : string) :
  Py.isspace letter = false -> letter <> ":"%char -> letter <> "010"%char ->
  clean_label label -> clean_value value ->
  let line := String letter "" +:+ label +:+ ": " +:+ value in
  Py.strip line = line
  /\ Py.startswith line (String letter "") = true
  /\ Py.has_char ":" line = true
  /\ Py.item (Py.split_max ":" 1 line) 1 = Ok (" " +:+ value)
  /\ free_of "010" line.
Proof.
  intros Hsp Hcolon Hnl [Hlc Hln] Hv line.
  pose proof Hv as (Hne & Hs & He & Hvn).
  assert (line = String letter (label +:+ String ":" (" " +:+ value)))
    as Hline by done.
  split_and!.
  - apply strip_fixed; [by rewrite Hline; simpl |].
    subst line.
    rewrite (ends_with_ws_app (String letter ""))
      by (apply append_filled, append_filled; by destruct value).
    rewrite (ends_with_ws_app label)
      by (apply append_filled; by destruct value).
    by rewrite (ends_with_ws_app ": ") by done.
  - rewrite Hline. unfold Py.startswith. simpl.
    destruct (ascii_dec letter letter); [by destruct label | done].
  - rewrite Hline. unfold Py.has_char.
    change (String letter (label +:+ String ":" (" " +:+ value)))
      with (String letter label +:+ String ":" (" " +:+ value)).
    clear Hline. induction (String letter label) as [|d r IH].
    + simpl. done.
    + change (String d r +:+ String ":" (" " +:+ value))
        with (String d (r +:+ String ":" (" " +:+ value))).
      rewrite contains_cons, IH. apply orb_true_r.
  - rewrite Hline.
    change (String letter (label +:+ String ":" (" " +:+ value)))
      with (String letter label +:+ String ":" (" " +:+ value)).
    rewrite split_max_first; [done |]. by split.
  - rewrite Hline. split; [done |].
    apply free_of_app. split; [done |]. split; [done |]. by split.
Qed.

Lemma reply_lines_free (pairs : list reply_pair) :
  Forall clean_pair pairs -> Forall (free_of "010") (reply_lines pairs).
Proof.
  induction 1 as [|p pairs (Hql & Hq & Hal & Ha) _ IH]; simpl; [done |].
  constructor; [by apply (reply_line_facts "Q") |].
  constructor; [by apply (reply_line_facts "A") | done].
Qed.

Lemma reply_lines_last (pairs : list reply_pair) (p : reply_pair) :
  Forall clean_pair (p :: pairs) ->
  exists lines last_pair,
    reply_lines (p :: pairs)
    = lines ++ ["A" +:+ a_label last_pair +:+ ": " +:+ a_text last_pair]
    /\ clean_pair last_pair.
Proof.
  revert p. induction pairs as [|q pairs IH]; intros p Hall.
  - exists ["Q" +:+ q_label p +:+ ": " +:+ q_text p], p.
    split; [done |]. by inversion Hall.
  - inversion Hall as [|? ? Hp Hrest]; subst.
    destruct (IH q Hrest) as (lines & lp & Heq & Hlp).
    exists (("Q" +:+ q_label p +:+ ": " +:+ q_text p)
              :: ("A" +:+ a_label p +:+ ": " +:+ a_text p) :: lines), lp.
    split; [| done].
    change (reply_lines (p :: q :: pairs))
      with (("Q" +:+ q_label p +:+ ": " +:+ q_text p)
              :: ("A" +:+ a_label p +:+ ": " +:+ a_text p)
              :: reply_lines (q :: pairs)).
    by rewrite Heq.
Qed.

Lemma reply_of_trimmed (pairs : list reply_pair) :
  Forall clean_pair pairs -> Py.strip (reply_of pairs) = reply_of pairs.
Proof.
  intros Hall. destruct pairs as [|p pairs]; [done |].
  apply strip_fixed; [done |].
  destruct (reply_lines_last pairs p Hall)
    as (lines & lp & Heq & (_ & _ & _ & Hne & _ & He & _)).
  unfold reply_of. rewrite Heq.
  pose proof (join_snoc_append (String "010" "") ""
                ("A" +:+ a_label lp +:+ ": " +:+ a_text lp) lines) as Hj.
  change ("" +:+ "A" +:+ a_label lp +:+ ": " +:+ a_text lp)
    with ("A" +:+ a_label lp +:+ ": " +:+ a_text lp) in Hj.
  rewrite <- Hj.
  rewrite (ends_with_ws_app (Py.join _ _))
    by (do 3 apply append_filled; done).
  rewrite (ends_with_ws_app "A")
    by (apply append_filled, append_filled; done).
  rewrite (ends_with_ws_app (a_label lp)) by (by apply append_filled).
  by rewrite (ends_with_ws_app ": ") by done.
Qed.

Lemma truthy_true (s : string) : s <> "" -> Py.truthy s = true.
Proof. by destruct s. Qed.

Lemma flush_texts (st : parse_state) (s : gen_state) :
  holds_pair st ->
  exists qs s',
    flush st s = (Ok qs, s')
    /\ texts_of <$> qs = (texts_of <$> questions st) ++ pending st.
Proof.
  intros [[Hq Ha] | (q & a & Hq & Ha & Hqne & Hane)];
    unfold flush, pending; rewrite Hq, ?Ha.
  - eexists _, _. split; [done |]. by rewrite app_nil_r.
  - rewrite !truthy_true by done. simpl.
    destruct (random_choice_types s) as (t & s' & Hr & _).
    unfold mbind, st_bind. rewrite Hr. eexists _, _. split; [done |].
    by rewrite fmap_app.
Qed.

(** A question line: the pair held before is appended, and the question of
    the line is held alone. *)
Lemma parse_line_question (label value : string) (st : parse_state)
    (s : gen_state) :
  clean_label label -> clean_value value -> holds_pair st ->
  exists qs s',
    parse_line st ("Q" +:+ label +:+ ": " +:+ value) s
    = (Ok {| questions := qs; current_q := Some value; current_a := None |},
       s')
    /\ texts_of <$> qs = (texts_of <$> questions st) ++ pending st.
Proof.
  intros Hl Hv Hst.
  destruct (reply_line_facts "Q" label value) as (Hs & Hp & Hc & Hi & _);
    try done.
  destruct (flush_texts st s Hst) as (qs & s1 & Hf & Hqs).
  exists qs, s1. split; [| done].
  unfold parse_line.
  change (Py.strip ("Q" +:+ label +:+ ": " +:+ value))
    with (Py.strip (String "Q" "" +:+ label +:+ ": " +:+ value)).
  rewrite Hs, Hp, Hc. cbn [andb].
  unfold mbind, st_bind, lift. rewrite Hf, Hi.
  by rewrite (strip_space_value value Hv).
Qed.

(** An answer line after a question: the answer of the line is held with
    the question. *)
Lemma parse_line_answer (label value q : string) (st : parse_state)
    (s : gen_state) :
  clean_label label -> clean_value value ->
  current_q st = Some q -> q <> "" ->
  parse_line st ("A" +:+ label +:+ ": " +:+ value) s
  = (Ok {| questions := questions st; current_q := Some q;
           current_a := Some value |}, s).
Proof.
  intros Hl Hv Hq Hne.
  destruct (reply_line_facts "A" label value) as (Hs & Hp & Hc & Hi & _);
    try done.
  unfold parse_line.
  change (Py.strip ("A" +:+ label +:+ ": " +:+ value))
    with (Py.strip (String "A" "" +:+ label +:+ ": " +:+ value)).
  rewrite Hs, Hp, Hc, Hq.
  replace (Py.startswith (String "A" "" +:+ label +:+ ": " +:+ value) "Q")
    with false by (by destruct label).
  cbn [andb Py.truthy_opt]. rewrite (truthy_true q Hne). cbn [andb].
  unfold mbind, st_bind, lift. rewrite Hi.
  by rewrite (strip_space_value value Hv).
Qed.

(** The lines of the pairs: every pair is appended when the next question
    line or the end is met, in the order of the reply. *)
Lemma parse_reply_lines (pairs : list reply_pair) :
  Forall clean_pair pairs ->
  forall (st : parse_state) (s : gen_state),
    holds_pair st ->
    exists st' s',
      parse_lines (reply_lines pairs) st s = (Ok st', s')
      /\ holds_pair st'
      /\ (texts_of <$> questions st') ++ pending st'
         = (texts_of <$> questions st) ++ pending st
           ++ ((fun p => (q_text p, a_text p)) <$> pairs).
Proof.
  induction 1 as [|p pairs (Hql & Hq & Hal & Ha) _ IH]; intros st s Hst.
  - exists st, s. split; [done |]. split; [done |]. by rewrite app_nil_r.
  - destruct (parse_line_question (q_label p) (q_text p) st s)
      as (qs & s1 & Hline & Hqs); try done.
    pose proof Hq as (Hqne & _). pose proof Ha as (Hane & _).
    set (st1 := {| questions := qs; current_q := Some (q_text p);
                   current_a := None |}) in Hline.
    pose proof (parse_line_answer (a_label p) (a_text p) (q_text p) st1 s1
                  Hal Ha eq_refl Hqne) as Hline2.
    set (st2 := {| questions := questions st1;
                   current_q := Some (q_text p);
                   current_a := Some (a_text p) |}) in Hline2.
    assert (holds_pair st2) as Hst2.
    { right. by exists (q_text p), (a_text p). }
    destruct (IH st2 s1 Hst2) as (st' & s' & Hrest & Hst' & Htexts).
    exists st', s'. split; [| split; [done |]].
    + change (parse_lines (reply_lines (p :: pairs)) st s)
        with (mbind
                (fun p1 =>
                   mbind (fun p2 => parse_lines (reply_lines pairs) p2)
                     (parse_line p1
                        ("A" +:+ a_label p +:+ ": " +:+ a_text p)))
                (parse_line st ("Q" +:+ q_label p +:+ ": " +:+ q_text p)) s).
      unfold mbind at 1. unfold st_bind at 1. rewrite Hline.
      unfold mbind at 1. unfold st_bind at 1. by rewrite Hline2.
    + rewrite Htexts. subst st2 st1. unfold pending at 1. simpl.
      by rewrite Hqs, <- !app_assoc.
Qed.

(** The parser gives back the pairs of a reply in the requested format. *)
Lemma parse_questions_reply (pairs : list reply_pair) (s : gen_state) :
  Forall clean_pair pairs ->
  exists qs s',
    _parse_questions (reply_of pairs) s = (Ok qs, s')
    /\ texts_of <$> qs
       = take 3 ((fun p => (q_text p, a_text p)) <$> pairs).
Proof.
  intros Hall. unfold _parse_questions.
  rewrite (reply_of_trimmed pairs Hall).
  set (st0 := {| questions := []; current_q := None; current_a := None |}).
  assert (holds_pair st0) as Hst0 by (by left).
  assert (exists st' s',
            parse_lines (Py.split_on "010" (reply_of pairs)) st0 s
            = (Ok st', s')
            /\ holds_pair st'
            /\ (texts_of <$> questions st') ++ pending st'
               = (fun p => (q_text p, a_text p)) <$> pairs)
    as (st' & s1 & Hlines & Hst' & Htexts).
  { destruct pairs as [|p pairs]; [by exists st0, s |].
    unfold reply_of.
    rewrite split_on_join by (done || by apply reply_lines_free).
    destruct (parse_reply_lines (p :: pairs) Hall st0 s Hst0)
      as (st' & s' & Hl & Hh & Ht).
    by exists st', s'. }
  destruct (flush_texts st' s1 Hst') as (qs & s2 & Hf & Hqs).
  exists (Py.slice_to qs 3), s2. split.
  - unfold mbind, st_bind. by rewrite Hlines, Hf.
  - rewrite slice_to_nonneg by lia.
    change (Z.to_nat 3) with 3%nat. by rewrite fmap_take, Hqs, Htexts.
Qed.

(** X29: when the collaborator replies in the format the prompt asks for,
    lines ["Q<label>: <question>"] each followed by a line
    ["A<label>: <answer>"], with labels free of colons and questions and
    answers that are not empty, on one line and without whitespace at their
    ends, [generate_challenge_questions] returns, without an error, the
    first three of these pairs in the order of the reply, question and
    expected answer as they were written: not the fallback questions. *)
Theorem generate_challenge_questions_round_trip (model : collaborator)
    (document_text : string) (pairs : list reply_pair) (s : gen_state) :
  model (_create_question_prompt document_text) question_config
  = Ok (Some (reply_of pairs)) ->
  Forall clean_pair pairs ->
  exists qs s',
    generate_challenge_questions model document_text s = (Ok qs, s')
    /\ texts_of <$> qs
       = take 3 ((fun p => (q_text p, a_text p)) <$> pairs).
Proof.
  intros Hmodel Hall.
  destruct (parse_questions_reply pairs s Hall) as (qs & s' & Hp & Hqs).
  exists qs, s'. split; [| done].
  apply (generate_challenge_questions_parsed _ _ _ _ Hmodel).
  unfold reply_text. simpl. by destruct (Py.truthy (reply_of pairs)) eqn:Ht;
    [| apply truthy_false_empty in Ht; rewrite Ht in *].
Qed.

End RoundTrip.

Lemma generate_challenge_questions_round_trip_witness :
  let pairs :=
    [ {| q_label := "1"; q_text := "What is tea?";
         a_label := "1"; a_text := "A drink." |};
      {| q_label := "2"; q_text := "Why: taste?";
         a_label := "2"; a_text := "It is warm." |} ] in
  exists qs s',
    QuestionGenerator.generate_challenge_questions
      (fun _ _ => Ok (Some (reply_of pairs))) "Tea is a drink."
      (App.generator fresh_app_state) = (Ok qs, s')
    /\ texts_of <$> qs
       = take 3 ((fun p => (q_text p, a_text p)) <$> pairs).
Proof.
  intros pairs.
  apply (generate_challenge_questions_round_trip
           (fun _ _ => Ok (Some (reply_of pairs))) "Tea is a drink." pairs
           (App.generator fresh_app_state)).
  - reflexivity.
  - repeat constructor; done.
Defined.
